(** * admin-panel-dashboard: authorization and accountability core

    A shallow embedding of the session, permission, lockout, audit and
    role-deletion code of the backend:

    - [models/User.js], [models/Role.js], [models/Permission.js],
      [models/BlacklistedToken.js], [models/AuditLog.js] (schemas, virtuals
      and document methods);
    - [middlewares/auth.js] ([createAuditLog], [protect], the permission,
      role and level guards);
    - [controllers/authController.js] ([login], [logout]),
      [controllers/roleController.js] ([deleteRole]),
      [controllers/userController.js] ([assignRole]);
    - [middlewares/errorHandler.js].

    Collections are lists of documents in natural order.  Handlers are
    written in a state-and-exception monad over the [World]: the database,
    the audit collection with its write faults, the local console and the
    list of store and codec calls made so far.

    Conventions.  A handler that reads the clock takes [now], the value of
    [Date.now()] for the request, in milliseconds.  Identifiers are taken
    to be well-formed ObjectIds (no [CastError]), the primary store is
    taken to be reachable (only the audit store has scripted faults), and
    the TTL pruning of expired ledger and audit entries, a background job
    of the store, is left out. *)

From Stdlib Require Import ZArith List String Ascii Bool Lia DecimalString.
Import ListNotations.

Open Scope string_scope.
Open Scope Z_scope.

(** ** Data model *)

(** A Mongo [ObjectId], by its hexadecimal rendering. *)
Definition ObjectId := string.

(** models/Permission.js: the fields the core reads. *)
Module Permission.
Record doc := mk {
    _id : ObjectId;
    name : string
}.
End Permission.

(** models/Role.js.  [doc] is the stored document ([permissions] are
    references); [t] is the document after the [pre(/^find/)] hook has
    populated [permissions]. *)
Module Role.
Record doc := mkDoc {
    _id : ObjectId;
    name : string;
    permission_ids : list ObjectId;
    level : Z;
    isSystemRole : bool
}.

Record t := mk {
    stored : doc;
    permissions : list Permission.doc
}.
End Role.

(** models/User.js: [status] enum. *)
Inductive Status := active | inactive | suspended.

Definition Status_name (s : Status) : string :=
  match s with
  | active => "active"
  | inactive => "inactive"
  | suspended => "suspended"
  end.

Definition Status_eqb (a b : Status) : bool :=
  match a, b with
  | active, active | inactive, inactive | suspended, suspended => true
  | _, _ => false
  end.

(** models/User.js.  [doc] is the stored document; [t] is the document a
    [find*] query returns, after the [pre(/^find/)] hook has populated
    [role] (null when the reference dangles) and [additionalRoles]
    (dangling references are dropped from a populated array).  Dates are
    milliseconds since the epoch. *)
Module User.
Record doc := mkDoc {
    _id : ObjectId;
    email : string;
    password : string;
    role_id : ObjectId;
    additionalRole_ids : list ObjectId;
    status : Status;
    lastLogin : option Z;
    loginAttempts : Z;
    lockUntil : option Z
}.

Record t := mk {
    stored : doc;
    role : option Role.t;
    additionalRoles : list Role.t
}.
End User.

(** ** Permission resolver (models/User.js, virtual [allPermissions]) *)

(** [Set.prototype.add]: insertion order is kept, a value already present
    is not added again. *)
Definition Set_add (s : list string) (x : string) : list string :=
  if existsb (String.eqb x) s then s else s ++ [x].

(** [role.permissions.forEach(perm => permissions.add(perm.name))] *)
Definition add_role_permissions (s : list string) (r : Role.t) : list string :=
  fold_left Set_add (map Permission.name (Role.permissions r)) s.

Definition allPermissions (u : User.t) : list string :=
  let permissions := [] in
  let permissions :=
    match User.role u with
    | Some r => add_role_permissions permissions r
    | None => permissions
    end in
  fold_left add_role_permissions (User.additionalRoles u) permissions.

Definition includes (l : list string) (x : string) : bool :=
  existsb (String.eqb x) l.

Definition hasPermission (u : User.t) (permission : string) : bool :=
  includes (allPermissions u) permission.

Definition hasAnyPermission (u : User.t) (permissions : list string) : bool :=
  existsb (fun perm => includes (allPermissions u) perm) permissions.

Definition hasAllPermissions (u : User.t) (permissions : list string) : bool :=
  forallb (fun perm => includes (allPermissions u) perm) permissions.

(** Virtual [isLocked]: [!!(this.lockUntil && this.lockUntil > Date.now())]. *)
Definition isLocked (now : Z) (u : User.doc) : bool :=
  match User.lockUntil u with
  | Some t => now <? t
  | None => false
  end.

(** ** Session tokens (jsonwebtoken, as the code uses it) *)

(** The payload [generateAuthToken] signs, with the [iat] and [exp] claims
    jsonwebtoken adds (seconds since the epoch). *)
Module Jwt.
Record payload := mkPayload {
    id : ObjectId;
    email : string;
    role : string;
    permissions : list string;
    iat : Z;
    exp : Z
}.
End Jwt.

(** A bearer credential: a string that is no JWS at all, or one that
    splits into a payload and a signature. *)
Inductive Token :=
| Opaque (raw : string)
| Signed (payload : Jwt.payload) (signature : string).

Definition Payload_eq_dec (a b : Jwt.payload) : {a = b} + {a <> b}.
Proof.
  decide equality; try apply Z.eq_dec; try apply string_dec.
  apply (list_eq_dec string_dec).
Defined.

Definition Token_eq_dec (a b : Token) : {a = b} + {a <> b}.
Proof.
  decide equality; try apply string_dec; apply Payload_eq_dec.
Defined.

(** JavaScript falsiness of the extracted credential: [undefined] or the
    empty string. *)
Definition falsy_token (tok : option Token) : bool :=
  match tok with
  | None => true
  | Some (Opaque EmptyString) => true
  | Some _ => false
  end.

(** models/BlacklistedToken.js *)
Module BlacklistedToken.
Record doc := mk {
    token : Token;
    userId : ObjectId;
    reason : string;
    userAgent : option string;
    ipAddress : option string;
    expiresAt : Z
}.
End BlacklistedToken.

(** ** Audit records (models/AuditLog.js) *)

(** Values of the free-form [details] payload. *)
Inductive JsValue :=
| JNull
| JStr (s : string)
| JNum (z : Z)
| JBool (b : bool)
| JDate (ms : option Z)
| JStrings (l : list string)
| JPayload (p : Jwt.payload).

Module AuditLog.
Record doc := mk {
    userId : option ObjectId;
    action : string;
    resource : string;
    resourceId : option string;
    details : list (string * JsValue);
    ipAddress : string;
    userAgent : string;
    status : string;
    severity : string
}.

Definition action_enum : list string :=
  [ "login"; "logout"; "register"; "password_change"; "profile_update";
    "user_create"; "user_update"; "user_delete"; "failed_login";
    "account_locked"; "password_reset"; "role_change"; "status_change";
    "user_list_access"; "user_profile_access"; "user_stats_access";
    "access_denied" ].

Definition resource_enum : list string := [ "user"; "auth"; "system" ].
Definition status_enum : list string := [ "success"; "failure"; "warning" ].
Definition severity_enum : list string := [ "low"; "medium"; "high"; "critical" ].
End AuditLog.

(** ** Errors, responses, requests *)

Inductive Exn :=
| JsonWebTokenError (message : string)
| TokenExpiredError
| ValidationError (errors : list string)
| MongoDuplicateKey (keyValue : list string)
| MongoNetworkError (message : string)
| TypeError (message : string).

(** A response message: literal text, or the text [req.t] looks up for a
    key (the catalogue is outside the core). *)
Inductive Message :=
| Text (s : string)
| req_t (key : string).

Inductive Data :=
| data_null
| data_user (u : ObjectId)
| data_login (u : User.t) (token : Token).

(** What a handler sends: a [res.status(..).json(..)] of the middleware, or
    the call it makes to the [APIResponse] helper (utils/response.js is not
    part of the embedded sources; a response is identified with the call
    and its arguments). *)
Inductive Response :=
| res_json (status : Z) (message : Message) (code : option string)
           (required : list string)
| APIResponse_success (data : Data) (message : Message)
| APIResponse_error (message : Message) (statusCode : Z)
| APIResponse_notFound (message : Message)
| APIResponse_unauthorized (message : Message)
| APIResponse_validationError (errors : list string) (message : Message)
| APIResponse_deleted (message : Message).

(** The [Authorization] header, split at its first space:
    [scheme] is what [startsWith('Bearer')] inspects and [credentials] is
    [split(' ')[1]]. *)
Record Authorization := mkAuthorization {
    scheme : string;
    credentials : option Token
}.

Record Req := mkReq {
    authorization : option Authorization;
    ip : option string;
    remoteAddress : option string;
    user_agent : option string;
    originalUrl : string;
    params_id : ObjectId;
    body_email : string;
    body_password : string;
    body_roleId : ObjectId;
    user : option User.t;
    token : option Token
}.

(** How an Express handler ends: [next()], a response, or [next(error)]. *)
Inductive Handled :=
| next (req : Req)
| send (r : Response)
| next_error (e : Exn).

(** ** The world: database, audit collection, console, call log *)

Record Db := mkDb {
    users : list User.doc;
    roles : list Role.doc;
    permissions : list Permission.doc;
    blacklistedTokens : list BlacklistedToken.doc
}.

(** Every model query and codec call, in the order the code makes them. *)
Inductive Call :=
| call_BlacklistedToken_findOne (tok : Token)
| call_BlacklistedToken_create (tok : Token)
| call_jwt_verify (tok : Token)
| call_jwt_decode (tok : option Token)
| call_User_findById (id : ObjectId)
| call_User_findOne (email : string)
| call_User_updateOne (id : ObjectId)
| call_User_save (id : ObjectId)
| call_User_countDocuments (role : ObjectId)
| call_Role_findById (id : ObjectId)
| call_Role_findByIdAndDelete (id : ObjectId)
| call_AuditLog_create (action : string).

(** [auditFaults] scripts the audit store: the head says whether the next
    write reaches an unavailable store; an empty script is a store that is
    up. *)
Record World := mkWorld {
    db : Db;
    auditLogs : list AuditLog.doc;
    auditFaults : list bool;
    console : list string;
    calls : list Call
}.

Inductive Completion (A : Type) :=
| Return (a : A)
| Throw (e : Exn).
Arguments Return {A} a.
Arguments Throw {A} e.

Definition M (A : Type) := World -> Completion A * World.

Definition ret {A} (a : A) : M A := fun w => (Return a, w).

Definition throw {A} (e : Exn) : M A := fun w => (Throw e, w).

Definition bind {A B} (m : M A) (k : A -> M B) : M B :=
  fun w =>
    match m w with
    | (Return a, w') => k a w'
    | (Throw e, w') => (Throw e, w')
    end.

(** [try { m } catch (error) { h error }] *)
Definition try_catch {A} (m : M A) (h : Exn -> M A) : M A :=
  fun w =>
    match m w with
    | (Return a, w') => (Return a, w')
    | (Throw e, w') => h e w'
    end.

Definition lift {A} (c : Completion A) : M A := fun w => (c, w).

Definition get_db : M Db := fun w => (Return (db w), w).

Definition with_db (d : Db) (w : World) : World :=
  mkWorld d (auditLogs w) (auditFaults w) (console w) (calls w).

Definition set_db (d : Db) : M unit :=
  fun w => (Return tt, with_db d w).

Definition log_call (c : Call) (w : World) : World :=
  mkWorld (db w) (auditLogs w) (auditFaults w) (console w) (calls w ++ [c]).

Definition record_call (c : Call) : M unit :=
  fun w => (Return tt, log_call c w).

Definition console_error (line : string) : M unit :=
  fun w => (Return tt,
            mkWorld (db w) (auditLogs w) (auditFaults w) (console w ++ [line]) (calls w)).

Notation "x <- m ;; k" := (bind m (fun x => k))
  (at level 61, m at next level, right associativity).
Notation "m ;;; k" := (bind m (fun _ => k))
  (at level 61, right associativity).

(** config/index.js: the values the core reads ([expiresIn] in seconds). *)
Record Config := mkConfig {
    jwt_secret : string;
    jwt_expiresIn : Z
}.

(** JavaScript [a || b] on optional strings: [undefined], [null] and the
    empty string are falsy. *)
Definition js_or (a b : option string) : option string :=
  match a with
  | Some EmptyString | None => b
  | Some _ => a
  end.

Definition js_or_default (a : option string) (d : string) : string :=
  match a with
  | Some EmptyString | None => d
  | Some s => s
  end.

Fixpoint lookup_key (k : string) (o : list (string * JsValue)) : option JsValue :=
  match o with
  | [] => None
  | (k', v) :: o' => if String.eqb k k' then Some v else lookup_key k o'
  end.

Definition Exn_message (e : Exn) : string :=
  match e with
  | JsonWebTokenError m => m
  | TokenExpiredError => "jwt expired"
  | ValidationError errs => String.concat ", " errs
  | MongoDuplicateKey _ => "E11000 duplicate key error"
  | MongoNetworkError m => m
  | TypeError m => m
  end.

(** ** Population (the [pre(/^find/)] hooks of User.js and Role.js) *)

Definition Permission_lookup (d : Db) (id : ObjectId) : option Permission.doc :=
  find (fun p => String.eqb (Permission._id p) id) (permissions d).

Definition Role_lookup (d : Db) (id : ObjectId) : option Role.doc :=
  find (fun r => String.eqb (Role._id r) id) (roles d).

Definition option_to_list {A} (o : option A) : list A :=
  match o with
  | Some a => [a]
  | None => []
  end.

Definition Role_populate (d : Db) (r : Role.doc) : Role.t :=
  Role.mk r (flat_map (fun id => option_to_list (Permission_lookup d id))
                      (Role.permission_ids r)).

Definition User_populate (d : Db) (u : User.doc) : User.t :=
  User.mk u
    (option_map (Role_populate d) (Role_lookup d (User.role_id u)))
    (flat_map (fun id => option_to_list (option_map (Role_populate d) (Role_lookup d id)))
              (User.additionalRole_ids u)).

(** ** Model queries *)

Definition User_lookup (d : Db) (id : ObjectId) : option User.doc :=
  find (fun u => String.eqb (User._id u) id) (users d).

Definition User_lookup_email (d : Db) (email : string) : option User.doc :=
  find (fun u => String.eqb (User.email u) email) (users d).

(** The revocation ledger's point lookup, by the exact token value. *)
Definition Blacklist_lookup (d : Db) (tok : Token) : option BlacklistedToken.doc :=
  find (fun b => if Token_eq_dec (BlacklistedToken.token b) tok then true else false)
       (blacklistedTokens d).

Definition User_findById (id : ObjectId) : M (option User.t) :=
  record_call (call_User_findById id) ;;;
  d <- get_db ;;
  ret (option_map (User_populate d) (User_lookup d id)).

(** [User.findOne({ email }).select('+password')]; the address is matched
    as given (the validation layer has normalised it). *)
Definition User_findOne (email : string) : M (option User.t) :=
  record_call (call_User_findOne email) ;;;
  d <- get_db ;;
  ret (option_map (User_populate d) (User_lookup_email d email)).

Fixpoint update_first {A} (p : A -> bool) (f : A -> A) (l : list A) : list A :=
  match l with
  | [] => []
  | x :: l' => if p x then f x :: l' else x :: update_first p f l'
  end.

Fixpoint remove_first {A} (p : A -> bool) (l : list A) : list A :=
  match l with
  | [] => []
  | x :: l' => if p x then l' else x :: remove_first p l'
  end.

Definition set_users (us : list User.doc) (d : Db) : Db :=
  mkDb us (roles d) (permissions d) (blacklistedTokens d).

Definition set_roles (rs : list Role.doc) (d : Db) : Db :=
  mkDb (users d) rs (permissions d) (blacklistedTokens d).

Definition set_blacklistedTokens (bs : list BlacklistedToken.doc) (d : Db) : Db :=
  mkDb (users d) (roles d) (permissions d) bs.

(** [this.updateOne(update)] on a user document: the update is applied by
    the store to the stored document with this [_id]. *)
Definition User_updateOne (id : ObjectId) (update : User.doc -> User.doc) : M unit :=
  record_call (call_User_updateOne id) ;;;
  d <- get_db ;;
  set_db (set_users (update_first (fun u => String.eqb (User._id u) id) update (users d)) d).

(** [user.role = roleId; await user.save()] *)
Definition User_save_role (id : ObjectId) (roleId : ObjectId) : M unit :=
  record_call (call_User_save id) ;;;
  d <- get_db ;;
  set_db (set_users
            (update_first (fun u => String.eqb (User._id u) id)
               (fun u => User.mkDoc (User._id u) (User.email u) (User.password u)
                           roleId (User.additionalRole_ids u) (User.status u)
                           (User.lastLogin u) (User.loginAttempts u) (User.lockUntil u))
               (users d)) d).

(** [User.countDocuments({ role: id })] *)
Definition User_countDocuments_role (id : ObjectId) : M nat :=
  record_call (call_User_countDocuments id) ;;;
  d <- get_db ;;
  ret (List.length (filter (fun u => String.eqb (User.role_id u) id) (users d))).

Definition Role_findById (id : ObjectId) : M (option Role.t) :=
  record_call (call_Role_findById id) ;;;
  d <- get_db ;;
  ret (option_map (Role_populate d) (Role_lookup d id)).

Definition Role_findByIdAndDelete (id : ObjectId) : M unit :=
  record_call (call_Role_findByIdAndDelete id) ;;;
  d <- get_db ;;
  set_db (set_roles (remove_first (fun r => String.eqb (Role._id r) id) (roles d)) d).

Definition BlacklistedToken_findOne (tok : Token) : M (option BlacklistedToken.doc) :=
  record_call (call_BlacklistedToken_findOne tok) ;;;
  d <- get_db ;;
  ret (Blacklist_lookup d tok).

(** [BlacklistedToken.create(doc)]: schema validation ([token] is a
    required string), then the insert, which the unique index on [token]
    rejects with error 11000 when the value is already present. *)
Definition BlacklistedToken_create (b : BlacklistedToken.doc) : M unit :=
  record_call (call_BlacklistedToken_create (BlacklistedToken.token b)) ;;;
  if falsy_token (Some (BlacklistedToken.token b)) then
    throw (ValidationError ["Path `token` is required."])
  else
    d <- get_db ;;
    match Blacklist_lookup d (BlacklistedToken.token b) with
    | Some _ => throw (MongoDuplicateKey ["token"])
    | None => set_db (set_blacklistedTokens (blacklistedTokens d ++ [b]) d)
    end.

(** [AuditLog.create(doc)]: schema validation, then the write. *)
Definition required_string (path : string) (s : string) : list string :=
  match s with
  | EmptyString => ["Path `" ++ path ++ "` is required."]
  | _ => []
  end.

Definition enum_string (path : string) (enum : list string) (s : string) : list string :=
  if includes enum s then []
  else ["`" ++ s ++ "` is not a valid enum value for path `" ++ path ++ "`."].

Definition AuditLog_validate (a : AuditLog.doc) : list string :=
  (match AuditLog.userId a with
   | None => ["Path `userId` is required."]
   | Some _ => []
   end)
  ++ required_string "action" (AuditLog.action a)
  ++ enum_string "action" AuditLog.action_enum (AuditLog.action a)
  ++ required_string "resource" (AuditLog.resource a)
  ++ enum_string "resource" AuditLog.resource_enum (AuditLog.resource a)
  ++ required_string "ipAddress" (AuditLog.ipAddress a)
  ++ required_string "userAgent" (AuditLog.userAgent a)
  ++ enum_string "status" AuditLog.status_enum (AuditLog.status a)
  ++ enum_string "severity" AuditLog.severity_enum (AuditLog.severity a).

Definition AuditLog_insert (a : AuditLog.doc) : M unit :=
  fun w =>
    match auditFaults w with
    | true :: script =>
        (Throw (MongoNetworkError "audit store unavailable"),
         mkWorld (db w) (auditLogs w) script (console w) (calls w))
    | false :: script =>
        (Return tt, mkWorld (db w) (auditLogs w ++ [a]) script (console w) (calls w))
    | [] =>
        (Return tt, mkWorld (db w) (auditLogs w ++ [a]) [] (console w) (calls w))
    end.

Definition AuditLog_create (a : AuditLog.doc) : M unit :=
  record_call (call_AuditLog_create (AuditLog.action a)) ;;;
  match AuditLog_validate a with
  | [] => AuditLog_insert a
  | errors => throw (ValidationError errors)
  end.

(** ** Audit sink (middlewares/auth.js, [createAuditLog]) *)

Definition createAuditLog (userId : option ObjectId) (action resource : string)
    (details : list (string * JsValue)) (req : Req) (status severity : string) : M unit :=
  try_catch
    (AuditLog_create
       (AuditLog.mk userId action resource
          (match lookup_key "resourceId" details with
           | Some (JStr s) => js_or (Some s) None
           | _ => None
           end)
          details
          (js_or_default (js_or (ip req) (remoteAddress req)) "unknown")
          (js_or_default (user_agent req) "unknown")
          status severity))
    (fun error => console_error ("Audit log creation failed: " ++ Exn_message error)).

(** [field.charAt(0).toUpperCase() + field.slice(1)] *)
Definition toUpperCase_ascii (c : ascii) : ascii :=
  let n := nat_of_ascii c in
  if (Nat.leb 97 n && Nat.leb n 122)%bool then ascii_of_nat (n - 32) else c.

Definition capitalize (s : string) : string :=
  match s with
  | EmptyString => EmptyString
  | String c s' => String (toUpperCase_ascii c) s'
  end.

(** [`${userCount}`] *)
Definition decimal (n : nat) : string := NilZero.string_of_uint (Nat.to_uint n).

(** ** Error handler (middlewares/errorHandler.js) *)

Definition errorHandler (err : Exn) : Response :=
  match err with
  | MongoDuplicateKey keyValue =>
      let field := hd "undefined" keyValue in
      APIResponse_error (Text (capitalize field ++ " already exists")) 400
  | ValidationError errors =>
      APIResponse_validationError errors (req_t "errors.validation")
  | JsonWebTokenError _ => APIResponse_unauthorized (req_t "errors.unauthorized")
  | TokenExpiredError => APIResponse_unauthorized (Text "Token expired")
  | MongoNetworkError m | TypeError m =>
      APIResponse_error
        (match m with
         | EmptyString => req_t "errors.serverError"
         | _ => Text m
         end) 500
  end.

(** What the client receives once the error handler has run. *)
Definition respond (h : Handled) : option Response :=
  match h with
  | next _ => None
  | send r => Some r
  | next_error e => Some (errorHandler e)
  end.

(** Express runs the next handler of a route only after [next()]. *)
Definition chain (h1 h2 : Req -> M Handled) (req : Req) : M Handled :=
  r <- h1 req ;;
  match r with
  | next req' => h2 req'
  | _ => ret r
  end.

Definition with_principal (req : Req) (u : User.t) (tok : Token) : Req :=
  mkReq (authorization req) (ip req) (remoteAddress req) (user_agent req)
        (originalUrl req) (params_id req) (body_email req) (body_password req)
        (body_roleId req) (Some u) (Some tok).

Definition lockTime : Z := 2 * 60 * 60 * 1000.
Definition maxAttempts : Z := 5.

Section Core.

(** The process-wide configuration, the HS256 keyed hash jsonwebtoken
    signs with, and [bcrypt.compare]. *)
Variable config : Config.
Variable hmac : string -> Jwt.payload -> string.
Variable bcrypt_compare : string -> string -> bool.

(** ** Token codec *)

(** [jwt.sign(payload, secret, { expiresIn })] at clock reading [now]. *)
Definition jwt_sign (id : ObjectId) (email role : string) (perms : list string)
    (now : Z) : Token :=
  let iat := now / 1000 in
  let p := Jwt.mkPayload id email role perms iat (iat + jwt_expiresIn config) in
  Signed p (hmac (jwt_secret config) p).

(** models/User.js, [generateAuthToken]; [this.role.name] throws when the
    populated role is null. *)
Definition generateAuthToken (this : User.t) (now : Z) : Completion Token :=
  match User.role this with
  | None => Throw (TypeError "Cannot read properties of null (reading 'name')")
  | Some r =>
      Return (jwt_sign (User._id (User.stored this)) (User.email (User.stored this))
                (Role.name (Role.stored r)) (allPermissions this) now)
  end.

(** [jwt.verify(token, secret)]: parse, recompute and compare the
    signature, then check the expiry. *)
Definition jwt_verify_pure (tok : Token) (now : Z) : Completion Jwt.payload :=
  match tok with
  | Opaque _ => Throw (JsonWebTokenError "jwt malformed")
  | Signed p sig =>
      if String.eqb sig (hmac (jwt_secret config) p) then
        if Jwt.exp p <=? now / 1000 then Throw TokenExpiredError
        else Return p
      else Throw (JsonWebTokenError "invalid signature")
  end.

Definition jwt_verify (tok : Token) (now : Z) : M Jwt.payload :=
  record_call (call_jwt_verify tok) ;;;
  lift (jwt_verify_pure tok now).

(** [jwt.decode(token)]: the payload without any check, or null. *)
Definition jwt_decode (tok : option Token) : option Jwt.payload :=
  match tok with
  | Some (Signed p _) => Some p
  | _ => None
  end.

(** ** Authorization gate (middlewares/auth.js) *)

Definition unauthorized : Response :=
  res_json 401 (req_t "errors.unauthorized") None [].

(** The credential [protect] extracts:
    [req.headers.authorization.split(' ')[1]] when the header starts with
    [Bearer]. *)
Definition bearer_token (req : Req) : option Token :=
  match authorization req with
  | Some h => if prefix "Bearer" (scheme h) then credentials h else None
  | None => None
  end.

Definition protect (now : Z) (req : Req) : M Handled :=
  try_catch
    (let token := bearer_token req in
     match token with
     | None => ret (send unauthorized)
     | Some tok =>
       if falsy_token token then ret (send unauthorized)
       else
         blacklistedToken <- BlacklistedToken_findOne tok ;;
         match blacklistedToken with
         | Some _ =>
             ret (send (res_json 401 (Text "Token has been invalidated")
                          (Some "TOKEN_BLACKLISTED") []))
         | None =>
             decoded <- jwt_verify tok now ;;
             user <- User_findById (Jwt.id decoded) ;;
             match user with
             | None =>
                 createAuditLog (Some (Jwt.id decoded)) "failed_login" "auth"
                   [("reason", JStr "user_not_found"); ("token_payload", JPayload decoded)]
                   req "failure" "high" ;;;
                 ret (send unauthorized)
             | Some user =>
                 if negb (Status_eqb (User.status (User.stored user)) active) then
                   createAuditLog (Some (User._id (User.stored user))) "failed_login" "auth"
                     [("reason", JStr "account_inactive");
                      ("status", JStr (Status_name (User.status (User.stored user))))]
                     req "failure" "medium" ;;;
                   ret (send unauthorized)
                 else if isLocked now (User.stored user) then
                   createAuditLog (Some (User._id (User.stored user))) "failed_login" "auth"
                     [("reason", JStr "account_locked");
                      ("lockUntil", JDate (User.lockUntil (User.stored user)))]
                     req "failure" "medium" ;;;
                   ret (send (res_json 423
                                (Text "Account temporarily locked due to too many failed login attempts")
                                (Some "ACCOUNT_LOCKED") []))
                 else ret (next (with_principal req user tok))
             end
         end
     end)
    (fun error =>
       console_error ("Auth middleware error: " ++ Exn_message error) ;;;
       match error with
       | TokenExpiredError =>
           ret (send (res_json 401 (Text "Token expired") (Some "TOKEN_EXPIRED") []))
       | JsonWebTokenError _ =>
           ret (send (res_json 401 (Text "Invalid token") (Some "TOKEN_INVALID") []))
       | _ => ret (send unauthorized)
       end).

Definition req_user (req : Req) : M User.t :=
  match user req with
  | Some u => ret u
  | None => throw (TypeError "Cannot read properties of undefined")
  end.

Definition forbidden_permissions (required : list string) : Response :=
  res_json 403 (req_t "errors.forbidden") (Some "INSUFFICIENT_PERMISSIONS") required.

Definition requirePermission (permission : string) (req : Req) : M Handled :=
  u <- req_user req ;;
  if negb (hasPermission u permission) then
    createAuditLog (Some (User._id (User.stored u))) "access_denied" "auth"
      [("reason", JStr "insufficient_permissions");
       ("required_permission", JStr permission);
       ("user_permissions", JStrings (allPermissions u));
       ("attempted_resource", JStr (originalUrl req))]
      req "failure" "high" ;;;
    ret (send (forbidden_permissions [permission]))
  else ret (next req).

Definition requireAnyPermission (permissions : list string) (req : Req) : M Handled :=
  u <- req_user req ;;
  if negb (hasAnyPermission u permissions) then
    createAuditLog (Some (User._id (User.stored u))) "access_denied" "auth"
      [("reason", JStr "insufficient_permissions");
       ("required_permissions", JStrings permissions);
       ("user_permissions", JStrings (allPermissions u));
       ("attempted_resource", JStr (originalUrl req))]
      req "failure" "high" ;;;
    ret (send (forbidden_permissions permissions))
  else ret (next req).

Definition requireAllPermissions (permissions : list string) (req : Req) : M Handled :=
  u <- req_user req ;;
  if negb (hasAllPermissions u permissions) then
    createAuditLog (Some (User._id (User.stored u))) "access_denied" "auth"
      [("reason", JStr "insufficient_permissions");
       ("required_permissions", JStrings permissions);
       ("user_permissions", JStrings (allPermissions u));
       ("attempted_resource", JStr (originalUrl req))]
      req "failure" "high" ;;;
    ret (send (forbidden_permissions permissions))
  else ret (next req).

Definition req_user_role (u : User.t) : M Role.t :=
  match User.role u with
  | Some r => ret r
  | None => throw (TypeError "Cannot read properties of null")
  end.

Definition restrictTo (roles : list string) (req : Req) : M Handled :=
  u <- req_user req ;;
  r <- req_user_role u ;;
  let userRoleName := Role.name (Role.stored r) in
  if negb (includes roles userRoleName) then
    createAuditLog (Some (User._id (User.stored u))) "access_denied" "auth"
      [("reason", JStr "insufficient_role");
       ("required_roles", JStrings roles);
       ("user_role", JStr userRoleName);
       ("attempted_resource", JStr (originalUrl req))]
      req "failure" "high" ;;;
    ret (send (res_json 403 (req_t "errors.forbidden") (Some "INSUFFICIENT_ROLE") []))
  else ret (next req).

Definition requireSuperAdmin (req : Req) : M Handled :=
  u <- req_user req ;;
  r <- req_user_role u ;;
  if Role.level (Role.stored r) <? 90 then
    createAuditLog (Some (User._id (User.stored u))) "access_denied" "auth"
      [("reason", JStr "requires_super_admin");
       ("user_level", JNum (Role.level (Role.stored r)));
       ("attempted_resource", JStr (originalUrl req))]
      req "failure" "critical" ;;;
    ret (send (res_json 403 (Text "Super admin access required")
                 (Some "REQUIRES_SUPER_ADMIN") []))
  else ret (next req).

(** ** Lockout guard (models/User.js) *)

Definition set_lockout (attempts : Z) (lock : option Z) (u : User.doc) : User.doc :=
  User.mkDoc (User._id u) (User.email u) (User.password u) (User.role_id u)
             (User.additionalRole_ids u) (User.status u) (User.lastLogin u)
             attempts lock.

Definition incLoginAttempts (this : User.doc) (now : Z) : M unit :=
  if match User.lockUntil this with
     | Some t => t <? now
     | None => false
     end
  then
    (* { $unset: { lockUntil: 1 }, $set: { loginAttempts: 1 } } *)
    User_updateOne (User._id this) (set_lockout 1 None)
  else
    (* { $inc: { loginAttempts: 1 } }, with $set: { lockUntil } at the threshold *)
    if (maxAttempts <=? User.loginAttempts this + 1) && negb (isLocked now this) then
      User_updateOne (User._id this)
        (fun s => set_lockout (User.loginAttempts s + 1) (Some (now + lockTime)) s)
    else
      User_updateOne (User._id this)
        (fun s => set_lockout (User.loginAttempts s + 1) (User.lockUntil s) s).

(** [{ $unset: { loginAttempts: 1, lockUntil: 1 }, $set: { lastLogin } }];
    an unset counter reads back as its schema default 0. *)
Definition resetLoginAttempts (this : User.doc) (now : Z) : M unit :=
  User_updateOne (User._id this)
    (fun s => User.mkDoc (User._id s) (User.email s) (User.password s) (User.role_id s)
                (User.additionalRole_ids s) (User.status s) (Some now) 0 None).

Definition comparePassword (this : User.doc) (candidatePassword : string) : bool :=
  bcrypt_compare candidatePassword (User.password this).

(** ** controllers/authController.js *)

Definition login (now : Z) (req : Req) : M Handled :=
  try_catch
    (let email := body_email req in
     let password := body_password req in
     found <- User_findOne email ;;
     match found with
     | None =>
         createAuditLog None "failed_login" "auth"
           [("email", JStr email); ("reason", JStr "user_not_found")]
           req "failure" "medium" ;;;
         ret (send (APIResponse_error (req_t "auth.invalidCredentials") 401))
     | Some user =>
         let u := User.stored user in
         if isLocked now u then
           createAuditLog (Some (User._id u)) "failed_login" "auth"
             [("reason", JStr "account_locked"); ("lockUntil", JDate (User.lockUntil u))]
             req "failure" "medium" ;;;
           ret (send (APIResponse_error (req_t "user.accountLocked") 423))
         else if negb (Status_eqb (User.status u) active) then
           createAuditLog (Some (User._id u)) "failed_login" "auth"
             [("reason", JStr "account_inactive");
              ("status", JStr (Status_name (User.status u)))]
             req "failure" "medium" ;;;
           ret (send (APIResponse_error (req_t "errors.unauthorized") 401))
         else
           let isPasswordCorrect := comparePassword u password in
           if negb isPasswordCorrect then
             incLoginAttempts u now ;;;
             createAuditLog (Some (User._id u)) "failed_login" "auth"
               [("reason", JStr "invalid_password");
                ("attempts", JNum (User.loginAttempts u + 1))]
               req "failure" (if 3 <=? User.loginAttempts u then "high" else "medium") ;;;
             ret (send (APIResponse_error (req_t "auth.invalidCredentials") 401))
           else
             resetLoginAttempts u now ;;;
             token <- lift (generateAuthToken user now) ;;
             createAuditLog (Some (User._id u)) "login" "auth"
               [("login_method", JStr "password");
                ("user_agent", match user_agent req with Some s => JStr s | None => JNull end);
                ("last_login", JDate (User.lastLogin u))]
               req "success" "low" ;;;
             ret (send (APIResponse_success (data_login user token) (req_t "auth.loginSuccess")))
     end)
    (fun error => ret (next_error error)).

Definition logout (req : Req) : M Handled :=
  try_catch
    (record_call (call_jwt_decode (token req)) ;;;
     match jwt_decode (token req) with
     | None => throw (TypeError "Cannot read properties of null (reading 'exp')")
     | Some decoded =>
         let expiresAt := Jwt.exp decoded * 1000 in
         match token req, user req with
         | Some tok, Some user =>
             let uid := User._id (User.stored user) in
             BlacklistedToken_create
               (BlacklistedToken.mk tok uid "logout" (user_agent req)
                  (js_or (ip req) (remoteAddress req)) expiresAt) ;;;
             createAuditLog (Some uid) "logout" "auth"
               [("logout_method", JStr "manual");
                ("token_expires_at", JDate (Some expiresAt))]
               req "success" "low" ;;;
             ret (send (APIResponse_success data_null (req_t "auth.logoutSuccess")))
         | _, _ => throw (TypeError "Cannot read properties of undefined (reading '_id')")
         end
     end)
    (fun error => ret (next_error error)).

(** ** controllers/roleController.js, [deleteRole] *)

Definition deleteRole (req : Req) : M Handled :=
  try_catch
    (found <- Role_findById (params_id req) ;;
     match found with
     | None => ret (send (APIResponse_notFound (Text "Role not found")))
     | Some role =>
         if Role.isSystemRole (Role.stored role) then
           ret (send (APIResponse_error (Text "System roles cannot be deleted") 400))
         else
           userCount <- User_countDocuments_role (Role._id (Role.stored role)) ;;
           if Nat.ltb 0 userCount then
             ret (send (APIResponse_error
                          (Text ("Cannot delete role. " ++ decimal userCount
                                 ++ " users are assigned to this role")) 400))
           else
             Role_findByIdAndDelete (params_id req) ;;;
             u <- req_user req ;;
             createAuditLog (Some (User._id (User.stored u))) "role_delete" "system"
               [("deleted_role", JStr (Role._id (Role.stored role)));
                ("name", JStr (Role.name (Role.stored role)));
                ("permission_count", JNum (Z.of_nat (List.length (Role.permissions role))))]
               req "success" "high" ;;;
             ret (send (APIResponse_deleted (Text "Role deleted successfully")))
     end)
    (fun error => ret (next_error error)).

(** ** controllers/userController.js, [assignRole] *)

Definition assignRole (req : Req) : M Handled :=
  try_catch
    (let roleId := body_roleId req in
     found <- User_findById (params_id req) ;;
     match found with
     | None => ret (send (APIResponse_notFound (req_t "user.notFound")))
     | Some user =>
         role <- Role_findById roleId ;;
         match role with
         | None => ret (send (APIResponse_error (Text "Invalid role ID") 400))
         | Some role =>
             let oldRole := User.role user in
             User_save_role (User._id (User.stored user)) roleId ;;;
             actor <- req_user req ;;
             oldRole <- req_user_role user ;;
             createAuditLog (Some (User._id (User.stored actor))) "user_role_change" "user"
               [("user_id", JStr (User._id (User.stored user)));
                ("user_email", JStr (User.email (User.stored user)));
                ("old_role", JStr (Role.name (Role.stored oldRole)));
                ("new_role", JStr (Role.name (Role.stored role)));
                ("assigned_by", JStr (User._id (User.stored actor)))]
               req "success" "high" ;;;
             ret (send (APIResponse_success (data_user (User._id (User.stored user)))
                          (Text "Role assigned successfully")))
         end
     end)
    (fun error => ret (next_error error)).

(** ** Routes (routes/auth.js, routes/roles.js) *)

(** A route behind [router.use(protect)] and one permission guard. *)
Definition gate (permission : string) (now : Z) : Req -> M Handled :=
  chain (protect now) (requirePermission permission).

Definition route_logout (now : Z) : Req -> M Handled :=
  chain (protect now) logout.

Definition route_deleteRole (now : Z) : Req -> M Handled :=
  chain (protect now) (chain requireSuperAdmin deleteRole).

(** ** A seeded database (utils/seeder.js, abridged) and sample requests *)

Definition seed_permissions : list Permission.doc :=
  [ Permission.mk "a01" "user:read";
    Permission.mk "a02" "system:manage";
    Permission.mk "a03" "content:create";
    Permission.mk "a04" "content:read";
    Permission.mk "a05" "content:update" ].

Definition role_super_admin : Role.doc :=
  Role.mkDoc "b01" "super_admin" ["a01"; "a02"; "a03"; "a04"; "a05"] 100 true.

(** The seeder keeps the creation order of the permissions it filters. *)
Definition role_editor : Role.doc :=
  Role.mkDoc "b02" "editor" ["a01"; "a03"; "a04"; "a05"] 30 true.

Definition role_user : Role.doc :=
  Role.mkDoc "b03" "user" ["a04"] 10 true.

(** A role created by an operator, hence not a system role. *)
Definition role_reviewer : Role.doc :=
  Role.mkDoc "b04" "reviewer" ["a04"] 20 false.

Definition user_root : User.doc :=
  User.mkDoc "c01" "superadmin@adminpanel.com" "$2a$SuperAdmin123!" "b01" []
             active None 0 None.

Definition user_alice : User.doc :=
  User.mkDoc "c02" "alice@adminpanel.com" "$2a$Alice123!" "b02" []
             active None 0 None.

(** Primary role [user], additional role [editor]. *)
Definition user_bob : User.doc :=
  User.mkDoc "c03" "bob@adminpanel.com" "$2a$Bob123!" "b03" ["b02"]
             active None 0 None.

(** Primary role [user], additional role [super_admin]. *)
Definition user_carol : User.doc :=
  User.mkDoc "c04" "carol@adminpanel.com" "$2a$Carol123!" "b03" ["b01"]
             active None 0 None.

Definition user_dave : User.doc :=
  User.mkDoc "c05" "dave@adminpanel.com" "$2a$Dave123!" "b04" []
             active None 0 None.

Definition seed_db : Db :=
  mkDb [user_root; user_alice; user_bob; user_carol; user_dave]
       [role_super_admin; role_editor; role_user; role_reviewer]
       seed_permissions [].

Definition seed_world : World := mkWorld seed_db [] [] [] [].

Definition sample_config : Config := mkConfig "process-wide-secret" 604800.

(** Stand-ins for the two primitives, for evaluating the handlers. *)
Definition sample_hmac (key : string) (p : Jwt.payload) : string :=
  key ++ "." ++ Jwt.id p ++ "." ++ String.concat "," (Jwt.permissions p).

Definition sample_bcrypt_compare (candidate hash : string) : bool :=
  String.eqb hash ("$2a$" ++ candidate).

Definition sample_req : Req :=
  mkReq None (Some "10.0.0.7") None (Some "curl/8.0") "/api" EmptyString
        EmptyString EmptyString EmptyString None None.

Definition with_bearer (tok : Token) (req : Req) : Req :=
  mkReq (Some (mkAuthorization "Bearer" (Some tok))) (ip req) (remoteAddress req)
        (user_agent req) (originalUrl req) (params_id req) (body_email req)
        (body_password req) (body_roleId req) (user req) (token req).

Definition with_params_id (id : ObjectId) (req : Req) : Req :=
  mkReq (authorization req) (ip req) (remoteAddress req)
        (user_agent req) (originalUrl req) id (body_email req)
        (body_password req) (body_roleId req) (user req) (token req).

Definition with_body_roleId (roleId : ObjectId) (req : Req) : Req :=
  mkReq (authorization req) (ip req) (remoteAddress req)
        (user_agent req) (originalUrl req) (params_id req) (body_email req)
        (body_password req) roleId (user req) (token req).

Definition with_credentials (email password : string) (req : Req) : Req :=
  mkReq (authorization req) (ip req) (remoteAddress req)
        (user_agent req) (originalUrl req) (params_id req) email
        password (body_roleId req) (user req) (token req).

Definition with_user (u : User.t) (req : Req) : Req :=
  mkReq (authorization req) (ip req) (remoteAddress req)
        (user_agent req) (originalUrl req) (params_id req) (body_email req)
        (body_password req) (body_roleId req) (Some u) (token req).

(** Two worlds that differ at most in their audit side. *)
Definition same_outside_audit (w1 w2 : World) : Prop :=
  db w1 = db w2 /\ calls w1 = calls w2.

(** A computation whose completion, database effect and calls do not
    depend on the audit side of the world. *)
Definition audit_blind {A} (m : M A) : Prop :=
  forall w1 w2 : World,
    same_outside_audit w1 w2 ->
    fst (m w1) = fst (m w2) /\ same_outside_audit (snd (m w1)) (snd (m w2)).

(** The audit side of a world replaced: collection, fault script, console. *)
Definition with_audit (w : World) (logs : list AuditLog.doc) (faults : list bool)
    (lines : list string) : World :=
  mkWorld (db w) logs faults lines (calls w).

(** Running a handler. *)
Definition result {A} (m : M A) (w : World) : Completion A := fst (m w).
Definition after {A} (m : M A) (w : World) : World := snd (m w).

(** Whatever the audit collection holds, whichever of its writes fail and
    whatever the console shows, [m] completes the same way, leaves the same
    database and makes the same calls. *)
Definition audit_independent {A} (m : M A) : Prop :=
  forall (w : World) (logs : list AuditLog.doc) (faults : list bool)
         (lines : list string),
    result m (with_audit w logs faults lines) = result m w /\
    db (after m (with_audit w logs faults lines)) = db (after m w) /\
    calls (after m (with_audit w logs faults lines)) = calls (after m w).

(** [run_attempts] replays failed logins: one request and clock reading
    per attempt. *)
Fixpoint run_attempts (attempts : list (Z * Req)) (w : World) : World :=
  match attempts with
  | [] => w
  | (now, req) :: rest => run_attempts rest (after (login now req) w)
  end.

(** ** Further handlers *)

(** middlewares/auth.js: the two fixed guards kept for backward
    compatibility. *)
Definition adminOnly : Req -> M Handled := requirePermission "system:manage".

Definition adminOrModerator : Req -> M Handled :=
  requireAnyPermission ["system:manage"; "user:manage"].

(** controllers/authController.js, [forceLogoutAll]: blacklists
    [req.token], with reason [force_logout]. *)
Definition forceLogoutAll (req : Req) : M Handled :=
  try_catch
    (record_call (call_jwt_decode (token req)) ;;;
     match jwt_decode (token req) with
     | None => throw (TypeError "Cannot read properties of null (reading 'exp')")
     | Some decoded =>
         let expiresAt := Jwt.exp decoded * 1000 in
         match token req, user req with
         | Some tok, Some user =>
             let uid := User._id (User.stored user) in
             BlacklistedToken_create
               (BlacklistedToken.mk tok uid "force_logout" (user_agent req)
                  (js_or (ip req) (remoteAddress req)) expiresAt) ;;;
             createAuditLog (Some uid) "logout" "auth"
               [("logout_method", JStr "force_all_sessions");
                ("initiated_by", JStr "user");
                ("note", JStr "In a production system, this would invalidate all user tokens")]
               req "success" "medium" ;;;
             ret (send (APIResponse_success data_null
                          (Text "All sessions logged out successfully")))
         | _, _ => throw (TypeError "Cannot read properties of undefined (reading '_id')")
         end
     end)
    (fun error => ret (next_error error)).

Section PasswordHash.

(** [bcrypt.hash(password, salt)]; the salt [bcrypt.genSalt] draws for a
    request is an argument of the handler that saves a password. *)
Variable bcrypt_hash : string -> string -> string.

Definition set_password (hash : string) (u : User.doc) : User.doc :=
  User.mkDoc (User._id u) (User.email u) hash (User.role_id u)
             (User.additionalRole_ids u) (User.status u) (User.lastLogin u)
             (User.loginAttempts u) (User.lockUntil u).

(** [user.password = newPassword; await user.save()]: the schema validates
    the new value ([required], [minlength] 6), then the [pre('save')] hook
    replaces it by its hash. *)
Definition User_save_password (id : ObjectId) (newPassword salt : string) : M unit :=
  record_call (call_User_save id) ;;;
  match newPassword with
  | EmptyString => throw (ValidationError ["Password is required"])
  | _ =>
      if Nat.ltb (String.length newPassword) 6 then
        throw (ValidationError ["Password must be at least 6 characters"])
      else
        d <- get_db ;;
        set_db (set_users
                  (update_first (fun u => String.eqb (User._id u) id)
                     (set_password (bcrypt_hash newPassword salt)) (users d)) d)
  end.

(** controllers/authController.js, [changePassword]; [currentPassword] and
    [newPassword] are the two fields of the request body. *)
Definition changePassword (salt currentPassword newPassword : string) (req : Req)
    : M Handled :=
  try_catch
    (actor <- req_user req ;;
     found <- User_findById (User._id (User.stored actor)) ;;
     match found with
     | None => throw (TypeError "Cannot read properties of null (reading 'comparePassword')")
     | Some user =>
         let uid := User._id (User.stored user) in
         let isCurrentPasswordCorrect := comparePassword (User.stored user) currentPassword in
         if negb isCurrentPasswordCorrect then
           createAuditLog (Some uid) "password_change" "auth"
             [("reason", JStr "incorrect_current_password")]
             req "failure" "high" ;;;
           ret (send (APIResponse_error (Text "Current password is incorrect") 400))
         else
           User_save_password uid newPassword salt ;;;
           record_call (call_jwt_decode (token req)) ;;;
           match jwt_decode (token req), token req with
           | Some decoded, Some tok =>
               let expiresAt := Jwt.exp decoded * 1000 in
               BlacklistedToken_create
                 (BlacklistedToken.mk tok uid "password_change" (user_agent req)
                    (js_or (ip req) (remoteAddress req)) expiresAt) ;;;
               createAuditLog (Some uid) "password_change" "auth"
                 [("method", JStr "self_change"); ("tokens_invalidated", JBool true)]
                 req "success" "medium" ;;;
               ret (send (APIResponse_success data_null (req_t "auth.passwordChanged")))
           | _, _ => throw (TypeError "Cannot read properties of null (reading 'exp')")
           end
     end)
    (fun error => ret (next_error error)).

End PasswordHash.

(** [User.findByIdAndDelete(id)]: removes the document and returns it as
    the [pre(/^find/)] hook populated it, or null.  (The call log follows
    the gate and the handlers above; this query is not entered in it.) *)
Definition User_findByIdAndDelete (id : ObjectId) : M (option User.t) :=
  d <- get_db ;;
  match User_lookup d id with
  | None => ret None
  | Some u =>
      set_db (set_users (remove_first (fun u => String.eqb (User._id u) id) (users d)) d) ;;;
      ret (Some (User_populate d u))
  end.

(** controllers/userController.js, [deleteUser] *)
Definition deleteUser (req : Req) : M Handled :=
  try_catch
    (actor <- req_user req ;;
     if String.eqb (params_id req) (User._id (User.stored actor)) then
       ret (send (APIResponse_error (Text "You cannot delete your own account") 400))
     else
       found <- User_findByIdAndDelete (params_id req) ;;
       match found with
       | None => ret (send (APIResponse_notFound (req_t "user.notFound")))
       | Some user =>
           role <- req_user_role user ;;
           createAuditLog (Some (User._id (User.stored actor))) "user_delete" "user"
             [("deleted_user", JStr (User._id (User.stored user)));
              ("deleted_user_email", JStr (User.email (User.stored user)));
              ("deleted_user_role", JStr (Role.name (Role.stored role)));
              ("deleted_by", JStr (User._id (User.stored actor)))]
             req "success" "high" ;;;
           ret (send (APIResponse_deleted (req_t "auth.userDeleted")))
       end)
    (fun error => ret (next_error error)).

(** ** A second sample database: accounts in other states *)

(** A role created by an operator that nobody holds as primary role. *)
Definition role_auditor : Role.doc :=
  Role.mkDoc "b05" "auditor" ["a01"] 20 false.

(** Locked until 1700000000000 ms after five failures. *)
Definition user_erin : User.doc :=
  User.mkDoc "c06" "erin@adminpanel.com" "$2a$Erin123!" "b03" []
             active None 5 (Some 1700000000000).

Definition user_frank : User.doc :=
  User.mkDoc "c07" "frank@adminpanel.com" "$2a$Frank123!" "b03" []
             suspended None 0 None.

(** The primary role no longer exists. *)
Definition user_gina : User.doc :=
  User.mkDoc "c08" "gina@adminpanel.com" "$2a$Gina123!" "b99" []
             active None 2 None.

(** Primary role [user], additional role [auditor]. *)
Definition user_henry : User.doc :=
  User.mkDoc "c09" "henry@adminpanel.com" "$2a$Henry123!" "b03" ["b05"]
             active None 0 None.

Definition states_db : Db :=
  mkDb [user_root; user_alice; user_dave; user_erin; user_frank; user_gina; user_henry]
       [role_super_admin; role_editor; role_user; role_reviewer; role_auditor]
       seed_permissions [].

Definition states_world : World := mkWorld states_db [] [] [] [].



(** ** Relations between the world before and after a computation *)

(** [m] takes every world to one related to it by [R]. *)
Definition steps_within (R : World -> World -> Prop) {A} (m : M A) : Prop :=
  forall w : World, R w (after m w).

(** A record the AuditLog schema accepts. *)
Definition schema_valid (a : AuditLog.doc) : Prop := AuditLog_validate a = [].

(** The audit collection has only grown, by records the schema accepts. *)
Definition audit_grows (w w' : World) : Prop :=
  exists l : list AuditLog.doc,
    auditLogs w' = (auditLogs w ++ l)%list /\ Forall schema_valid l.

(** The audit collection is as it was. *)
Definition audit_same (w w' : World) : Prop := auditLogs w' = auditLogs w.

(** The revocation ledger has only grown. *)
Definition ledger_grows (w w' : World) : Prop :=
  exists l : list BlacklistedToken.doc,
    blacklistedTokens (db w') = (blacklistedTokens (db w) ++ l)%list.

(** Role identifiers are unique within the collection. *)
Definition unique_role_ids (d : Db) : Prop := NoDup (map Role._id (roles d)).

(** A login attempt for the account of [d] whose password check fails. *)
Definition failed_password_check (d : User.doc) (attempt : Z * Req) : Prop :=
  body_email (snd attempt) = User.email d /\
  comparePassword d (body_password (snd attempt)) = false.

(** [_id] is unique within the collection. *)
Definition unique_ids (d : Db) : Prop := NoDup (map User._id (users d)).

(** ** Permission resolver: properties *)

Lemma Set_add_In (s : list string) (x p : string) :
  In p (Set_add s x) <-> In p s \/ p = x.
Proof.
  unfold Set_add.
  destruct (existsb (String.eqb x) s) eqn:E.
  - split; [tauto|]. intros [H|H]; [exact H|]. subst p.
    apply existsb_exists in E. destruct E as [y [Hy Heq]].
    apply String.eqb_eq in Heq. now subst y.
  - rewrite in_app_iff. simpl. intuition congruence.
Qed.

Lemma Set_add_NoDup (s : list string) (x : string) :
  NoDup s -> NoDup (Set_add s x).
Proof.
  intros Hs. unfold Set_add.
  destruct (existsb (String.eqb x) s) eqn:E; [exact Hs|].
  assert (Hx : ~ In x s).
  { intros Hin.
    assert (existsb (String.eqb x) s = true)
      by (apply existsb_exists; exists x; split; [exact Hin | apply String.eqb_refl]).
    congruence. }
  clear E. induction Hs as [|y s Hy Hs IH]; simpl.
  - constructor; [intros []|constructor].
  - constructor.
    + rewrite in_app_iff. simpl. intros [H|[H|[]]]; [tauto|]. subst. apply Hx. now left.
    + apply IH. intros H. apply Hx. now right.
Qed.

Lemma fold_Set_add_In (l s : list string) (p : string) :
  In p (fold_left Set_add l s) <-> In p s \/ In p l.
Proof.
  revert s. induction l as [|x l IH]; intros s; simpl.
  - tauto.
  - rewrite IH, Set_add_In. intuition congruence.
Qed.

Lemma fold_Set_add_NoDup (l s : list string) :
  NoDup s -> NoDup (fold_left Set_add l s).
Proof.
  revert s. induction l as [|x l IH]; intros s Hs; simpl; [exact Hs|].
  apply IH. now apply Set_add_NoDup.
Qed.

Lemma fold_roles_In (rs : list Role.t) (s : list string) (p : string) :
  In p (fold_left add_role_permissions rs s) <->
  In p s \/ exists r, In r rs /\ In p (map Permission.name (Role.permissions r)).
Proof.
  revert s. induction rs as [|r rs IH]; intros s; simpl.
  - split; [tauto|]. intros [H|[r [[] _]]]. exact H.
  - rewrite IH. unfold add_role_permissions. rewrite fold_Set_add_In.
    split.
    + intros [[H|H]|[r' [H1 H2]]]; [now left| |].
      * right. exists r. split; [now left|exact H].
      * right. exists r'. split; [now right|exact H2].
    + intros [H|[r' [[H1|H1] H2]]]; [tauto| |].
      * subst r'. tauto.
      * right. exists r'. tauto.
Qed.

Lemma fold_roles_NoDup (rs : list Role.t) (s : list string) :
  NoDup s -> NoDup (fold_left add_role_permissions rs s).
Proof.
  revert s. induction rs as [|r rs IH]; intros s Hs; simpl; [exact Hs|].
  apply IH. unfold add_role_permissions. now apply fold_Set_add_NoDup.
Qed.

Lemma includes_In (l : list string) (x : string) :
  includes l x = true <-> In x l.
Proof.
  unfold includes. rewrite existsb_exists. split.
  - intros [y [Hy Heq]]. apply String.eqb_eq in Heq. now subst.
  - intros H. exists x. split; [exact H|apply String.eqb_refl].
Qed.

(** C6. The effective permission list of every principal has no
    duplicates and holds exactly the permission names of the primary role
    and of the additional roles; the principal with primary role [user]
    ({content:read}) and additional role [editor] ({content:create,
    content:read, content:update, user:read}) has exactly 4 names. *)
Theorem C6_allPermissions_union_without_duplicates :
  (forall u : User.t,
      NoDup (allPermissions u) /\
      forall p : string,
        In p (allPermissions u) <->
        (exists r, User.role u = Some r /\
                   In p (map Permission.name (Role.permissions r))) \/
        (exists r, In r (User.additionalRoles u) /\
                   In p (map Permission.name (Role.permissions r)))) /\
  (option_map (fun r => map Permission.name (Role.permissions r))
     (User.role (User_populate seed_db user_bob)) = Some ["content:read"] /\
   map (fun r => map Permission.name (Role.permissions r))
     (User.additionalRoles (User_populate seed_db user_bob))
   = [["user:read"; "content:create"; "content:read"; "content:update"]] /\
   allPermissions (User_populate seed_db user_bob)
   = ["content:read"; "user:read"; "content:create"; "content:update"] /\
   List.length (allPermissions (User_populate seed_db user_bob)) = 4%nat).
Proof.
  split.
  - intros u. unfold allPermissions. split.
    + apply fold_roles_NoDup. destruct (User.role u) as [r|].
      * unfold add_role_permissions. apply fold_Set_add_NoDup. constructor.
      * constructor.
    + intros p. rewrite fold_roles_In. destruct (User.role u) as [r|].
      * unfold add_role_permissions at 1. rewrite fold_Set_add_In. simpl.
        split.
        -- intros [[[]|H]|H]; [left; exists r; auto|right; exact H].
        -- intros [[r' [Hr H]]|H]; [|right; exact H].
           injection Hr as <-. left. right. exact H.
      * simpl. split.
        -- intros [[]|H]. right. exact H.
        -- intros [[r' [Hr _]]|H]; [discriminate|right; exact H].
  - repeat split; reflexivity.
Qed.

(** ** Token codec: properties *)

Lemma jwt_verify_sign (id : ObjectId) (email role : string) (perms : list string)
    (now now' : Z) :
  now' / 1000 < now / 1000 + jwt_expiresIn config ->
  jwt_verify_pure (jwt_sign id email role perms now) now'
  = Return (Jwt.mkPayload id email role perms (now / 1000)
              (now / 1000 + jwt_expiresIn config)).
Proof.
  intros Hexp. unfold jwt_verify_pure, jwt_sign.
  rewrite String.eqb_refl. cbn [Jwt.exp].
  destruct (Z.leb_spec (now / 1000 + jwt_expiresIn config) (now' / 1000)); [lia|].
  reflexivity.
Qed.

(** C9. A token produced by [generateAuthToken] for principal [P], verified
    with the same secret before its expiry, yields claims whose identifier
    is [P]'s and whose permission list is [P]'s effective permission list;
    the verification does not consult the revocation ledger. *)
Theorem C9_verify_of_issued_token (P : User.t) (now now' : Z) (tok : Token) (w : World) :
  generateAuthToken P now = Return tok ->
  now' / 1000 < now / 1000 + jwt_expiresIn config ->
  exists claims : Jwt.payload,
    jwt_verify_pure tok now' = Return claims /\
    result (jwt_verify tok now') w = Return claims /\
    db (after (jwt_verify tok now') w) = db w /\
    Jwt.id claims = User._id (User.stored P) /\
    Jwt.permissions claims = allPermissions P.
Proof.
  intros Hissue Hexp. unfold generateAuthToken in Hissue.
  destruct (User.role P) as [r|]; [|discriminate].
  injection Hissue as <-.
  pose proof (jwt_verify_sign (User._id (User.stored P)) (User.email (User.stored P))
                (Role.name (Role.stored r)) (allPermissions P) now now' Hexp) as E.
  eexists. split; [exact E|].
  unfold result, after, jwt_verify, bind, record_call, lift. cbv beta iota.
  rewrite E. cbn [fst snd db Jwt.id Jwt.permissions]. auto.
Qed.

(** ** Audit sink: properties *)

Lemma createAuditLog_returns (userId : option ObjectId) (action resource : string)
    (details : list (string * JsValue)) (req : Req) (status severity : string)
    (w : World) :
  result (createAuditLog userId action resource details req status severity) w
  = Return tt /\
  db (after (createAuditLog userId action resource details req status severity) w)
  = db w /\
  calls (after (createAuditLog userId action resource details req status severity) w)
  = (calls w ++ [call_AuditLog_create action])%list.
Proof.
  unfold result, after, createAuditLog, try_catch, AuditLog_create, bind, record_call.
  cbn [AuditLog.action].
  match goal with |- context [AuditLog_validate ?a] => destruct (AuditLog_validate a) end.
  - unfold AuditLog_insert. cbn. destruct (auditFaults w) as [|[|] script]; cbn; auto.
  - cbn. auto.
Qed.

(** C3. With a null principal the audit write is rejected by the schema
    ([userId] is required), the sink swallows the rejection, and no record
    is added: neither by [createAuditLog] itself nor by the login of an
    unknown email on the seeded database. *)
Theorem C3_null_principal_record_is_not_written :
  (forall (action resource : string) (details : list (string * JsValue)) (req : Req)
          (status severity : string) (w : World),
      result (createAuditLog None action resource details req status severity) w
      = Return tt /\
      auditLogs (after (createAuditLog None action resource details req status severity) w)
      = auditLogs w) /\
  (forall now : Z,
      let req := with_credentials "nobody@adminpanel.com" "Secret123" sample_req in
      result (login now req) seed_world
      = Return (send (APIResponse_error (req_t "auth.invalidCredentials") 401)) /\
      auditLogs (after (login now req) seed_world) = []).
Proof.
  split.
  - intros. unfold result, after, createAuditLog, try_catch, AuditLog_create, bind,
      record_call, AuditLog_validate. cbn. auto.
  - intros now req. unfold result, after. cbn. auto.
Qed.

(** ** Level guard: properties *)

(** C10. For an authenticated principal with a primary role,
    [requireSuperAdmin] lets the request through exactly when the primary
    role's level is at least 90 and otherwise answers 403
    REQUIRES_SUPER_ADMIN; the additional roles play no part, so the seeded
    principal with primary role [user] (level 10) and additional role
    [super_admin] (level 100) is denied. *)
Theorem C10_requireSuperAdmin_reads_primary_level_only
    (req : Req) (u : User.t) (r : Role.t) (w : World) :
  user req = Some u ->
  User.role u = Some r ->
  (result (requireSuperAdmin req) w = Return (next req) <->
   90 <= Role.level (Role.stored r)) /\
  (Role.level (Role.stored r) < 90 ->
   result (requireSuperAdmin req) w
   = Return (send (res_json 403 (Text "Super admin access required")
                     (Some "REQUIRES_SUPER_ADMIN") []))) /\
  (forall extra : list Role.t,
      let req' := with_user (User.mk (User.stored u) (Some r) extra) req in
      (result (requireSuperAdmin req') w = Return (next req') <->
       90 <= Role.level (Role.stored r))) /\
  result (requireSuperAdmin (with_user (User_populate seed_db user_carol) req)) w
  = Return (send (res_json 403 (Text "Super admin access required")
                    (Some "REQUIRES_SUPER_ADMIN") [])).
Proof.
  intros Hu Hr.
  assert (Hgen : forall (q : Req) (v : User.t),
             user q = Some v -> User.role v = Some r ->
             result (requireSuperAdmin q) w
             = if Role.level (Role.stored r) <? 90
               then Return (send (res_json 403 (Text "Super admin access required")
                                    (Some "REQUIRES_SUPER_ADMIN") []))
               else Return (next q)).
  { intros q v Hq Hv. unfold result, requireSuperAdmin, req_user, req_user_role.
    rewrite Hq. unfold bind at 1. cbn [ret]. cbv beta iota.
    rewrite Hv. unfold bind at 1. cbn [ret]. cbv beta iota.
    destruct (Role.level (Role.stored r) <? 90); [|reflexivity].
    unfold bind.
    match goal with
    | |- context [createAuditLog ?a ?b ?c ?d ?e ?f ?g w] =>
        pose proof (createAuditLog_returns a b c d e f g w) as [Hres _];
        unfold result in Hres;
        destruct (createAuditLog a b c d e f g w) as [c0 w0]
    end.
    cbn in Hres. subst c0. reflexivity. }
  assert (Hdec : forall q : Req,
             (if Role.level (Role.stored r) <? 90
              then Return (send (res_json 403 (Text "Super admin access required")
                                   (Some "REQUIRES_SUPER_ADMIN") []))
              else Return (next q)) = Return (next q) <->
             90 <= Role.level (Role.stored r)).
  { intros q. destruct (Z.ltb_spec (Role.level (Role.stored r)) 90).
    - split; [discriminate|lia].
    - split; [lia|reflexivity]. }
  split; [|split; [|split]].
  - rewrite (Hgen req u Hu Hr). apply Hdec.
  - intros Hlt. rewrite (Hgen req u Hu Hr).
    destruct (Z.ltb_spec (Role.level (Role.stored r)) 90); [reflexivity|lia].
  - intros extra req'.
    rewrite (Hgen req' (User.mk (User.stored u) (Some r) extra) eq_refl eq_refl).
    apply Hdec.
  - unfold result, requireSuperAdmin, req_user, req_user_role, bind. cbn [with_user user ret].
    cbv beta iota. cbn [User_populate seed_db user_carol User.role User.role_id
                         Role_lookup roles find Role._id role_super_admin role_editor
                         role_user String.eqb Ascii.eqb Bool.eqb option_map].
    cbn [Role_populate Role.stored Role.level role_user Z.ltb Z.compare Pos.compare
           Pos.compare_cont ret].
    match goal with
    | |- context [createAuditLog ?a ?b ?c ?d ?e ?f ?g w] =>
        pose proof (createAuditLog_returns a b c d e f g w) as [Hres _];
        unfold result in Hres;
        destruct (createAuditLog a b c d e f g w) as [c0 w0]
    end.
    cbn in Hres. subst c0. reflexivity.
Qed.

(** ** Audit sink: the rest of the system never observes it *)

Lemma blind_ret {A} (a : A) : audit_blind (ret a).
Proof. intros w1 w2 H. cbn. auto. Qed.

Lemma blind_throw {A} (e : Exn) : audit_blind (@throw A e).
Proof. intros w1 w2 H. cbn. auto. Qed.

Lemma blind_lift {A} (c : Completion A) : audit_blind (lift c).
Proof. intros w1 w2 H. cbn. auto. Qed.

Lemma blind_bind {A B} (m : M A) (k : A -> M B) :
  audit_blind m -> (forall a, audit_blind (k a)) -> audit_blind (bind m k).
Proof.
  intros Hm Hk w1 w2 H. unfold bind.
  destruct (Hm w1 w2 H) as [Hr Hw].
  destruct (m w1) as [[a1|e1] w1'], (m w2) as [[a2|e2] w2']; cbn in Hr, Hw;
    try discriminate.
  - injection Hr as <-. apply Hk. exact Hw.
  - injection Hr as <-. cbn. auto.
Qed.

Lemma blind_try_catch {A} (m : M A) (h : Exn -> M A) :
  audit_blind m -> (forall e, audit_blind (h e)) -> audit_blind (try_catch m h).
Proof.
  intros Hm Hh w1 w2 H. unfold try_catch.
  destruct (Hm w1 w2 H) as [Hr Hw].
  destruct (m w1) as [[a1|e1] w1'], (m w2) as [[a2|e2] w2']; cbn in Hr, Hw;
    try discriminate.
  - injection Hr as <-. cbn. auto.
  - injection Hr as <-. apply Hh. exact Hw.
Qed.

Lemma blind_get_db : audit_blind get_db.
Proof. intros w1 w2 [Hd Hc]. cbn. rewrite Hd. repeat split; assumption. Qed.

Lemma blind_set_db (d : Db) : audit_blind (set_db d).
Proof. intros w1 w2 [Hd Hc]. cbn. repeat split; auto. Qed.

Lemma blind_record_call (c : Call) : audit_blind (record_call c).
Proof.
  intros w1 w2 [Hd Hc]. cbn. unfold same_outside_audit. cbn.
  rewrite Hc. auto.
Qed.

Lemma blind_console_error (line : string) : audit_blind (console_error line).
Proof. intros w1 w2 [Hd Hc]. cbn. unfold same_outside_audit. cbn. auto. Qed.

Lemma blind_createAuditLog (userId : option ObjectId) (action resource : string)
    (details : list (string * JsValue)) (req : Req) (status severity : string) :
  audit_blind (createAuditLog userId action resource details req status severity).
Proof.
  intros w1 w2 [Hd Hc].
  destruct (createAuditLog_returns userId action resource details req status severity w1)
    as (R1 & D1 & C1).
  destruct (createAuditLog_returns userId action resource details req status severity w2)
    as (R2 & D2 & C2).
  unfold result, after in *. unfold same_outside_audit.
  rewrite R1, R2, D1, D2, C1, C2, Hd, Hc. auto.
Qed.

Ltac blind_step :=
  first
    [ apply blind_ret | apply blind_throw | apply blind_lift
    | apply blind_get_db | apply blind_set_db | apply blind_record_call
    | apply blind_console_error | apply blind_createAuditLog
    | apply blind_bind; [|intros ?]
    | apply blind_try_catch; [|intros ?]
    | match goal with
      | |- audit_blind (match ?x with _ => _ end) => destruct x
      | |- audit_blind (if ?b then _ else _) => destruct b
      end ].

Ltac blind := repeat blind_step.

Lemma blind_protect (now : Z) (req : Req) : audit_blind (protect now req).
Proof.
  unfold protect, BlacklistedToken_findOne, jwt_verify, User_findById. blind.
Qed.

Lemma blind_requirePermission (permission : string) (req : Req) :
  audit_blind (requirePermission permission req).
Proof. unfold requirePermission, req_user. blind. Qed.

Lemma blind_requireAnyPermission (permissions : list string) (req : Req) :
  audit_blind (requireAnyPermission permissions req).
Proof. unfold requireAnyPermission, req_user. blind. Qed.

Lemma blind_requireAllPermissions (permissions : list string) (req : Req) :
  audit_blind (requireAllPermissions permissions req).
Proof. unfold requireAllPermissions, req_user. blind. Qed.

Lemma blind_restrictTo (roles : list string) (req : Req) :
  audit_blind (restrictTo roles req).
Proof. unfold restrictTo, req_user, req_user_role. blind. Qed.

Lemma blind_requireSuperAdmin (req : Req) : audit_blind (requireSuperAdmin req).
Proof. unfold requireSuperAdmin, req_user, req_user_role. blind. Qed.

Lemma blind_login (now : Z) (req : Req) : audit_blind (login now req).
Proof.
  unfold login, User_findOne, incLoginAttempts, resetLoginAttempts, User_updateOne. blind.
Qed.

Lemma blind_logout (req : Req) : audit_blind (logout req).
Proof. unfold logout, BlacklistedToken_create. blind. Qed.

Lemma blind_deleteRole (req : Req) : audit_blind (deleteRole req).
Proof.
  unfold deleteRole, Role_findById, User_countDocuments_role, Role_findByIdAndDelete,
    req_user. blind.
Qed.

Lemma blind_assignRole (req : Req) : audit_blind (assignRole req).
Proof.
  unfold assignRole, User_findById, Role_findById, User_save_role, req_user,
    req_user_role. blind.
Qed.

Lemma blind_chain (h1 h2 : Req -> M Handled) (req : Req) :
  (forall q, audit_blind (h1 q)) -> (forall q, audit_blind (h2 q)) ->
  audit_blind (chain h1 h2 req).
Proof. intros H1 H2. unfold chain. apply blind_bind; [apply H1|]. intros [q|r|e]; [apply H2| |]; apply blind_ret. Qed.

Lemma blind_with_audit {A} (m : M A) (w : World) (logs : list AuditLog.doc)
    (faults : list bool) (lines : list string) :
  audit_blind m ->
  result m (with_audit w logs faults lines) = result m w /\
  db (after m (with_audit w logs faults lines)) = db (after m w) /\
  calls (after m (with_audit w logs faults lines)) = calls (after m w).
Proof.
  intros Hm. destruct (Hm (with_audit w logs faults lines) w) as [Hr [Hd Hc]].
  - split; reflexivity.
  - unfold result, after. auto.
Qed.

(** C7. The audit sink never throws, whether its write is rejected by the
    schema, fails in the store, or succeeds; and every handler that emits
    audit records (login, logout, role assignment, role deletion, the gate
    and its guards, and the routes composed of them) completes with the
    same response, leaves the same database and makes the same calls
    whatever the audit collection holds and whichever audit writes fail. *)
Theorem C7_audit_write_failure_is_swallowed :
  (forall (userId : option ObjectId) (action resource : string)
          (details : list (string * JsValue)) (req : Req) (status severity : string)
          (w : World),
      result (createAuditLog userId action resource details req status severity) w
      = Return tt /\
      db (after (createAuditLog userId action resource details req status severity) w)
      = db w) /\
  (forall (now : Z) (req : Req),
      audit_independent (login now req) /\
      audit_independent (logout req) /\
      audit_independent (assignRole req) /\
      audit_independent (deleteRole req) /\
      audit_independent (protect now req) /\
      audit_independent (requireSuperAdmin req) /\
      audit_independent (route_logout now req) /\
      audit_independent (route_deleteRole now req)) /\
  (forall (now : Z) (req : Req) (permission : string) (names : list string),
      audit_independent (requirePermission permission req) /\
      audit_independent (requireAnyPermission names req) /\
      audit_independent (requireAllPermissions names req) /\
      audit_independent (restrictTo names req) /\
      audit_independent (gate permission now req)).
Proof.
  split; [|split].
  - intros. destruct (createAuditLog_returns userId action resource details req
                        status severity w) as (R & D & _). auto.
  - intros now req.
    repeat apply conj; intros w logs faults lines; apply blind_with_audit.
    + apply blind_login.
    + apply blind_logout.
    + apply blind_assignRole.
    + apply blind_deleteRole.
    + apply blind_protect.
    + apply blind_requireSuperAdmin.
    + apply blind_chain; intros; [apply blind_protect|apply blind_logout].
    + apply blind_chain; intros; [apply blind_protect|].
      apply blind_chain; intros; [apply blind_requireSuperAdmin|apply blind_deleteRole].
  - intros now req permission names.
    repeat apply conj; intros w logs faults lines; apply blind_with_audit.
    + apply blind_requirePermission.
    + apply blind_requireAnyPermission.
    + apply blind_requireAllPermissions.
    + apply blind_restrictTo.
    + apply blind_chain; intros; [apply blind_protect|apply blind_requirePermission].
Qed.

(** ** Running the primitives *)

Lemma bind_eq {A B} (m : M A) (k : A -> M B) (w : World) :
  bind m k w = match m w with
               | (Return a, w') => k a w'
               | (Throw e, w') => (Throw e, w')
               end.
Proof. reflexivity. Qed.

Lemma try_catch_eq {A} (m : M A) (h : Exn -> M A) (w : World) :
  try_catch m h w = match m w with
                    | (Return a, w') => (Return a, w')
                    | (Throw e, w') => h e w'
                    end.
Proof. reflexivity. Qed.

Lemma run_BlacklistedToken_findOne (tok : Token) (w : World) :
  BlacklistedToken_findOne tok w
  = (Return (Blacklist_lookup (db w) tok), log_call (call_BlacklistedToken_findOne tok) w).
Proof. reflexivity. Qed.

Lemma run_jwt_verify (tok : Token) (now : Z) (w : World) :
  jwt_verify tok now w = (jwt_verify_pure tok now, log_call (call_jwt_verify tok) w).
Proof. reflexivity. Qed.

Lemma run_User_findById (id : ObjectId) (w : World) :
  User_findById id w
  = (Return (option_map (User_populate (db w)) (User_lookup (db w) id)),
     log_call (call_User_findById id) w).
Proof. reflexivity. Qed.

Lemma run_User_findOne (email : string) (w : World) :
  User_findOne email w
  = (Return (option_map (User_populate (db w)) (User_lookup_email (db w) email)),
     log_call (call_User_findOne email) w).
Proof. reflexivity. Qed.

Lemma run_User_updateOne (id : ObjectId) (update : User.doc -> User.doc) (w : World) :
  User_updateOne id update w
  = (Return tt,
     with_db (set_users (update_first (fun u => String.eqb (User._id u) id) update
                           (users (db w))) (db w))
             (log_call (call_User_updateOne id) w)).
Proof. reflexivity. Qed.

Lemma run_Role_findById (id : ObjectId) (w : World) :
  Role_findById id w
  = (Return (option_map (Role_populate (db w)) (Role_lookup (db w) id)),
     log_call (call_Role_findById id) w).
Proof. reflexivity. Qed.

Lemma run_User_countDocuments_role (id : ObjectId) (w : World) :
  User_countDocuments_role id w
  = (Return (List.length (filter (fun u => String.eqb (User.role_id u) id)
                            (users (db w)))),
     log_call (call_User_countDocuments id) w).
Proof. reflexivity. Qed.

Lemma run_createAuditLog (userId : option ObjectId) (action resource : string)
    (details : list (string * JsValue)) (req : Req) (status severity : string)
    (w : World) :
  exists (logs : list AuditLog.doc) (faults : list bool) (lines : list string),
    createAuditLog userId action resource details req status severity w
    = (Return tt,
       with_audit (log_call (call_AuditLog_create action) w) logs faults lines) /\
    (logs = auditLogs w \/ exists a, logs = (auditLogs w ++ [a])%list).
Proof.
  unfold createAuditLog, try_catch, AuditLog_create, bind, record_call.
  cbn [AuditLog.action].
  match goal with |- context [AuditLog_validate ?a] => destruct (AuditLog_validate a) end.
  - unfold AuditLog_insert. cbn [auditFaults log_call].
    destruct (auditFaults w) as [|[|] script]; cbn;
      do 3 eexists; (split; [reflexivity|]); eauto.
  - cbn. do 3 eexists. split; [reflexivity|]. auto.
Qed.

Ltac run_audit :=
  match goal with
  | |- context [createAuditLog ?a ?b ?c ?d ?e ?f ?g ?w] =>
      let logs := fresh "logs" in
      let faults := fresh "faults" in
      let lines := fresh "lines" in
      let E := fresh "E" in
      destruct (run_createAuditLog a b c d e f g w) as (logs & faults & lines & E & _);
      rewrite E; clear E
  end.

Ltac run_step :=
  first
    [ rewrite bind_eq
    | rewrite run_BlacklistedToken_findOne
    | rewrite run_jwt_verify
    | rewrite run_User_findById
    | rewrite run_User_findOne
    | rewrite run_User_updateOne
    | rewrite run_Role_findById
    | rewrite run_User_countDocuments_role ];
  cbv beta iota.

Ltac close_calls :=
  rewrite <- ?app_assoc; cbn [app];
  repeat match goal with
         | |- _ /\ _ => split
         | |- exists _, _ => eexists
         end;
  try reflexivity; auto.

(** ** Authorization gate: order of the checks *)

Lemma protect_blacklisted (now : Z) (req : Req) (w : World) (tok : Token)
    (b : BlacklistedToken.doc) :
  bearer_token req = Some tok ->
  falsy_token (Some tok) = false ->
  Blacklist_lookup (db w) tok = Some b ->
  protect now req w
  = (Return (send (res_json 401 (Text "Token has been invalidated")
                     (Some "TOKEN_BLACKLISTED") [])),
     log_call (call_BlacklistedToken_findOne tok) w).
Proof.
  intros Hb Hf Hl. unfold protect. rewrite Hb, Hf, try_catch_eq.
  repeat run_step. rewrite Hl. reflexivity.
Qed.

Lemma protect_verify_fails (now : Z) (req : Req) (w : World) (tok : Token) (e : Exn) :
  bearer_token req = Some tok ->
  falsy_token (Some tok) = false ->
  Blacklist_lookup (db w) tok = None ->
  jwt_verify_pure tok now = Throw e ->
  result (protect now req) w
  = Return (send (match e with
                  | TokenExpiredError =>
                      res_json 401 (Text "Token expired") (Some "TOKEN_EXPIRED") []
                  | JsonWebTokenError _ =>
                      res_json 401 (Text "Invalid token") (Some "TOKEN_INVALID") []
                  | _ => unauthorized
                  end)) /\
  db (after (protect now req) w) = db w /\
  calls (after (protect now req) w)
  = (calls w ++ [call_BlacklistedToken_findOne tok; call_jwt_verify tok])%list.
Proof.
  intros Hb Hf Hl Hv. unfold result, after, protect. rewrite Hb, Hf, try_catch_eq.
  repeat run_step. rewrite Hl. cbv beta iota. repeat run_step. rewrite Hv.
  cbv beta iota. destruct e; cbn; rewrite <- app_assoc; auto.
Qed.

Lemma protect_verified (now : Z) (req : Req) (w : World) (tok : Token)
    (claims : Jwt.payload) :
  bearer_token req = Some tok ->
  falsy_token (Some tok) = false ->
  Blacklist_lookup (db w) tok = None ->
  jwt_verify_pure tok now = Return claims ->
  result (protect now req) w
  = Return (match User_lookup (db w) (Jwt.id claims) with
            | None => send unauthorized
            | Some d =>
                if negb (Status_eqb (User.status d) active) then send unauthorized
                else if isLocked now d then
                  send (res_json 423
                          (Text "Account temporarily locked due to too many failed login attempts")
                          (Some "ACCOUNT_LOCKED") [])
                else next (with_principal req (User_populate (db w) d) tok)
            end) /\
  db (after (protect now req) w) = db w /\
  exists rest : list Call,
    calls (after (protect now req) w)
    = (calls w ++ call_BlacklistedToken_findOne tok :: call_jwt_verify tok
         :: call_User_findById (Jwt.id claims) :: rest)%list /\
    (rest = [] \/ rest = [call_AuditLog_create "failed_login"]).
Proof.
  intros Hb Hf Hl Hv. unfold result, after, protect. rewrite Hb, Hf, try_catch_eq.
  repeat run_step. rewrite Hl. cbv beta iota. repeat run_step. rewrite Hv.
  cbv beta iota. repeat run_step. cbn [log_call db].
  destruct (User_lookup (db w) (Jwt.id claims)) as [d|]; cbn [option_map].
  - cbn [User_populate User.stored].
    destruct (negb (Status_eqb (User.status d) active)).
    + run_step. run_audit. cbn. close_calls.
    + destruct (isLocked now d).
      * run_step. run_audit. cbn. close_calls.
      * cbn. close_calls.
  - run_step. run_audit. cbn. close_calls.
Qed.

(** C2. On every request that carries a non-empty bearer credential, the
    gate looks the token up in the revocation ledger first; the token is
    verified only afterwards, and only when the ledger does not hold it.
    A ledger hit ends the request with TOKEN_BLACKLISTED without any
    verification; a token that fails verification has already been looked
    up and ends the request with TOKEN_EXPIRED or TOKEN_INVALID. *)
Theorem C2_ledger_lookup_precedes_verification
    (now : Z) (req : Req) (w : World) (tok : Token) :
  bearer_token req = Some tok ->
  falsy_token (Some tok) = false ->
  exists rest : list Call,
    calls (after (protect now req) w)
    = (calls w ++ call_BlacklistedToken_findOne tok :: rest)%list /\
    match Blacklist_lookup (db w) tok with
    | Some _ =>
        rest = [] /\
        result (protect now req) w
        = Return (send (res_json 401 (Text "Token has been invalidated")
                          (Some "TOKEN_BLACKLISTED") []))
    | None =>
        match jwt_verify_pure tok now with
        | Throw e =>
            rest = [call_jwt_verify tok] /\
            result (protect now req) w
            = Return (send (match e with
                            | TokenExpiredError =>
                                res_json 401 (Text "Token expired") (Some "TOKEN_EXPIRED") []
                            | JsonWebTokenError _ =>
                                res_json 401 (Text "Invalid token") (Some "TOKEN_INVALID") []
                            | _ => unauthorized
                            end))
        | Return claims =>
            exists rest' : list Call,
              rest = call_jwt_verify tok :: call_User_findById (Jwt.id claims) :: rest' /\
              (rest' = [] \/ rest' = [call_AuditLog_create "failed_login"])
        end
    end.
Proof.
  intros Hb Hf.
  destruct (Blacklist_lookup (db w) tok) as [b|] eqn:Hl.
  - exists []. unfold result, after. rewrite (protect_blacklisted now req w tok b Hb Hf Hl).
    cbn. auto.
  - destruct (jwt_verify_pure tok now) as [claims|e] eqn:Hv.
    + destruct (protect_verified now req w tok claims Hb Hf Hl Hv)
        as (_ & _ & rest' & Hc & Hrest).
      eexists. split; [exact Hc|]. exists rest'. auto.
    + destruct (protect_verify_fails now req w tok e Hb Hf Hl Hv) as (Hr & _ & Hc).
      eexists. split; [exact Hc|]. auto.
Qed.

Lemma protect_without_token (now : Z) (req : Req) (w : World) :
  falsy_token (bearer_token req) = true ->
  protect now req w = (Return (send unauthorized), w).
Proof.
  intros Hf. unfold protect. rewrite try_catch_eq.
  destruct (bearer_token req) as [tok|]; [rewrite Hf|]; reflexivity.
Qed.

(** What a request that passed [protect] went through. *)
Lemma protect_next_inv (now : Z) (req req' : Req) (w : World) :
  result (protect now req) w = Return (next req') ->
  exists (tok : Token) (claims : Jwt.payload) (d : User.doc),
    bearer_token req = Some tok /\
    Blacklist_lookup (db w) tok = None /\
    jwt_verify_pure tok now = Return claims /\
    User_lookup (db w) (Jwt.id claims) = Some d /\
    User.status d = active /\
    isLocked now d = false /\
    req' = with_principal req (User_populate (db w) d) tok.
Proof.
  intros H.
  destruct (falsy_token (bearer_token req)) eqn:Hf.
  { unfold result in H. rewrite (protect_without_token now req w Hf) in H. discriminate. }
  destruct (bearer_token req) as [tok|] eqn:Hb; [|discriminate].
  destruct (Blacklist_lookup (db w) tok) as [b|] eqn:Hl.
  { unfold result in H. rewrite (protect_blacklisted now req w tok b Hb Hf Hl) in H.
    discriminate. }
  destruct (jwt_verify_pure tok now) as [claims|e] eqn:Hv.
  - destruct (protect_verified now req w tok claims Hb Hf Hl Hv) as (Hr & _).
    rewrite Hr in H. exists tok, claims.
    destruct (User_lookup (db w) (Jwt.id claims)) as [d|]; [|discriminate].
    exists d. destruct (User.status d) eqn:Hs; cbn in H; try discriminate.
    destruct (isLocked now d); [discriminate|].
    injection H as <-. auto 10.
  - destruct (protect_verify_fails now req w tok e Hb Hf Hl Hv) as (Hr & _).
    rewrite Hr in H. destruct e; discriminate.
Qed.

Lemma chain_next (h1 h2 : Req -> M Handled) (req req' : Req) (w : World) :
  result (h1 req) w = Return (next req') ->
  result (chain h1 h2 req) w = result (h2 req') (after (h1 req) w).
Proof.
  unfold result, after, chain. rewrite bind_eq.
  destruct (h1 req w) as [c w']. cbn. intros ->. reflexivity.
Qed.

Lemma run_guard (u : User.t) (req : Req) (w : World) (ok : bool)
    (action resource : string) (details : list (string * JsValue))
    (status severity : string) (denied : Response) :
  result (if negb ok
          then createAuditLog (Some (User._id (User.stored u))) action resource details
                 req status severity ;;; ret (send denied)
          else ret (next req)) w
  = Return (if ok then next req else send denied).
Proof.
  unfold result. destruct ok; cbn [negb]; [reflexivity|].
  rewrite bind_eq. run_audit. reflexivity.
Qed.

(** C1. For every request that passes [protect], the permission guard of
    the route is evaluated on the principal as loaded, with its roles and
    their permissions, from the database at request time: the request goes
    on exactly when the required permission(s) are among the live effective
    permissions of that principal, and is otherwise answered 403 with the
    required name(s).  The permission list carried by the token takes no
    part in the decision. *)
Theorem C1_guards_read_live_permissions
    (now : Z) (req req' : Req) (w : World) :
  result (protect now req) w = Return (next req') ->
  exists (tok : Token) (claims : Jwt.payload) (d : User.doc),
    bearer_token req = Some tok /\
    jwt_verify_pure tok now = Return claims /\
    User_lookup (db w) (Jwt.id claims) = Some d /\
    user req' = Some (User_populate (db w) d) /\
    let live := User_populate (db w) d in
    (forall permission : string,
        result (chain (protect now) (requirePermission permission) req) w
        = Return (if includes (allPermissions live) permission
                  then next req'
                  else send (forbidden_permissions [permission]))) /\
    (forall names : list string,
        result (chain (protect now) (requireAnyPermission names) req) w
        = Return (if existsb (includes (allPermissions live)) names
                  then next req'
                  else send (forbidden_permissions names))) /\
    (forall names : list string,
        result (chain (protect now) (requireAllPermissions names) req) w
        = Return (if forallb (includes (allPermissions live)) names
                  then next req'
                  else send (forbidden_permissions names))).
Proof.
  intros H.
  destruct (protect_next_inv now req req' w H) as (tok & claims & d & Hb & _ & Hv & Hd & _ & _ & ->).
  exists tok, claims, d. repeat (split; [assumption || reflexivity|]).
  cbv zeta. repeat apply conj; intros x; rewrite (chain_next _ _ _ _ _ H).
  - unfold requirePermission, req_user. cbn [with_principal user].
    unfold result at 1. rewrite bind_eq. cbn [ret]. cbv beta iota.
    apply (run_guard (User_populate (db w) d)).
  - unfold requireAnyPermission, req_user. cbn [with_principal user].
    unfold result at 1. rewrite bind_eq. cbn [ret]. cbv beta iota.
    apply (run_guard (User_populate (db w) d)).
  - unfold requireAllPermissions, req_user. cbn [with_principal user].
    unfold result at 1. rewrite bind_eq. cbn [ret]. cbv beta iota.
    apply (run_guard (User_populate (db w) d)).
Qed.

(** ** Role deletion: properties *)

Lemma run_Role_lookup_populate (d : Db) (id : ObjectId) (r : Role.doc) :
  Role_lookup d id = Some r ->
  option_map (Role_populate d) (Role_lookup d id) = Some (Role_populate d r).
Proof. intros ->. reflexivity. Qed.

(** C8. Deleting a role that is not a system role and is the primary role
    of [n] principals, [n] at least 1, is answered with a 400 error whose
    message spells out [n], and neither the database nor the audit
    collection changes.  A system role is refused as well, with the 400
    error "System roles cannot be deleted", again without any change. *)
Theorem C8_deleteRole_refused_when_primary_role_of_users
    (req : Req) (w : World) (r : Role.doc) :
  Role_lookup (db w) (params_id req) = Some r ->
  let n := List.length (filter (fun u => String.eqb (User.role_id u) (Role._id r))
                          (users (db w))) in
  (Role.isSystemRole r = false ->
   (0 < n)%nat ->
   result (deleteRole req) w
   = Return (send (APIResponse_error
                     (Text ("Cannot delete role. " ++ decimal n
                            ++ " users are assigned to this role")) 400)) /\
   db (after (deleteRole req) w) = db w /\
   auditLogs (after (deleteRole req) w) = auditLogs w) /\
  (Role.isSystemRole r = true ->
   result (deleteRole req) w
   = Return (send (APIResponse_error (Text "System roles cannot be deleted") 400)) /\
   db (after (deleteRole req) w) = db w /\
   auditLogs (after (deleteRole req) w) = auditLogs w).
Proof.
  intros Hr n. unfold result, after, deleteRole.
  rewrite try_catch_eq. repeat run_step.
  rewrite (run_Role_lookup_populate _ _ _ Hr). cbv beta iota.
  cbn [Role_populate Role.stored]. split.
  - intros Hsys Hn. rewrite Hsys. repeat run_step. cbn [log_call db]. fold n.
    destruct (Nat.ltb_spec 0 n) as [_|Hle]; [|lia].
    cbn. auto.
  - intros Hsys. rewrite Hsys. cbn. auto.
Qed.

(** ** Revocation ledger: properties *)

Lemma Blacklist_lookup_appended (d : Db) (b : BlacklistedToken.doc) :
  Blacklist_lookup
    (set_blacklistedTokens (blacklistedTokens d ++ [b]) d) (BlacklistedToken.token b)
  <> None.
Proof.
  unfold Blacklist_lookup, set_blacklistedTokens. cbn [blacklistedTokens].
  induction (blacklistedTokens d) as [|x l IH]; cbn.
  - destruct (Token_eq_dec (BlacklistedToken.token b) (BlacklistedToken.token b));
      [discriminate|congruence].
  - destruct (Token_eq_dec (BlacklistedToken.token x) (BlacklistedToken.token b));
      [discriminate|exact IH].
Qed.

Lemma logout_run (req : Req) (w : World) (p : Jwt.payload) (sig : string) (u : User.t) :
  token req = Some (Signed p sig) ->
  user req = Some u ->
  let entry := BlacklistedToken.mk (Signed p sig) (User._id (User.stored u)) "logout"
                 (user_agent req) (js_or (ip req) (remoteAddress req))
                 (Jwt.exp p * 1000) in
  match Blacklist_lookup (db w) (Signed p sig) with
  | Some _ =>
      logout req w
      = (Return (next_error (MongoDuplicateKey ["token"])),
         log_call (call_BlacklistedToken_create (Signed p sig))
           (log_call (call_jwt_decode (Some (Signed p sig))) w))
  | None =>
      exists (logs : list AuditLog.doc) (faults : list bool) (lines : list string),
        logout req w
        = (Return (send (APIResponse_success data_null (req_t "auth.logoutSuccess"))),
           with_audit
             (log_call (call_AuditLog_create "logout")
                (with_db (set_blacklistedTokens (blacklistedTokens (db w) ++ [entry])
                            (db w))
                   (log_call (call_BlacklistedToken_create (Signed p sig))
                      (log_call (call_jwt_decode (Some (Signed p sig))) w))))
             logs faults lines)
  end.
Proof.
  intros Ht Hu entry.
  assert (Hcreate : BlacklistedToken_create entry
                      (log_call (call_jwt_decode (Some (Signed p sig))) w)
                    = match Blacklist_lookup (db w) (Signed p sig) with
                      | Some _ =>
                          (Throw (MongoDuplicateKey ["token"]),
                           log_call (call_BlacklistedToken_create (Signed p sig))
                             (log_call (call_jwt_decode (Some (Signed p sig))) w))
                      | None =>
                          (Return tt,
                           with_db (set_blacklistedTokens
                                      (blacklistedTokens (db w) ++ [entry]) (db w))
                             (log_call (call_BlacklistedToken_create (Signed p sig))
                                (log_call (call_jwt_decode (Some (Signed p sig))) w)))
                      end).
  { unfold BlacklistedToken_create. rewrite bind_eq. unfold record_call at 1.
    cbv beta iota. cbn [entry BlacklistedToken.token falsy_token].
    rewrite bind_eq. unfold get_db at 1. cbv beta iota. cbn [log_call db].
    destruct (Blacklist_lookup (db w) (Signed p sig)); reflexivity. }
  destruct (Blacklist_lookup (db w) (Signed p sig)) as [b|];
    unfold logout; rewrite try_catch_eq, Ht, Hu;
    cbn [jwt_decode]; rewrite bind_eq; unfold record_call at 1; cbv beta iota;
    rewrite bind_eq; fold entry; rewrite Hcreate.
  - reflexivity.
  - cbv beta iota. rewrite bind_eq. run_audit. cbn. eauto.
Qed.

(** C4. After a successful logout the ledger holds the token.  Revoking
    the same token again leaves the ledger as it was, but the operation
    does not succeed: the insert is rejected by the unique index with a
    duplicate-key error, which the handler passes on and the error handler
    answers with 400 "Token already exists"; and through the gate the
    second request does not reach the handler at all, being answered 401
    TOKEN_BLACKLISTED. *)
Theorem C4_second_revocation_keeps_ledger_but_fails (req : Req) (w : World) :
  result (logout req) w
  = Return (send (APIResponse_success data_null (req_t "auth.logoutSuccess"))) ->
  exists tok : Token,
    token req = Some tok /\
    let w1 := after (logout req) w in
    Blacklist_lookup (db w1) tok <> None /\
    (forall (req2 : Req) (u2 : User.t),
        token req2 = Some tok ->
        user req2 = Some u2 ->
        result (logout req2) w1 = Return (next_error (MongoDuplicateKey ["token"])) /\
        respond (next_error (MongoDuplicateKey ["token"]))
        = Some (APIResponse_error (Text "Token already exists") 400) /\
        db (after (logout req2) w1) = db w1) /\
    (forall (now : Z) (req2 : Req),
        bearer_token req2 = Some tok ->
        result (route_logout now req2) w1
        = Return (send (res_json 401 (Text "Token has been invalidated")
                          (Some "TOKEN_BLACKLISTED") [])) /\
        db (after (route_logout now req2) w1) = db w1).
Proof.
  intros H.
  destruct (token req) as [[raw|p sig]|] eqn:Ht;
    try (unfold result, logout in H; rewrite try_catch_eq, Ht in H; discriminate).
  destruct (user req) as [u|] eqn:Hu;
    [|unfold result, logout in H; rewrite try_catch_eq, Ht, Hu in H; discriminate].
  pose proof (logout_run req w p sig u Ht Hu) as Hrun. cbv zeta in Hrun.
  destruct (Blacklist_lookup (db w) (Signed p sig)) as [b|] eqn:Hl.
  { unfold result in H. rewrite Hrun in H. discriminate. }
  destruct Hrun as (logs & faults & lines & Hrun).
  assert (Hdb : db (after (logout req) w)
                = set_blacklistedTokens
                    (blacklistedTokens (db w)
                     ++ [BlacklistedToken.mk (Signed p sig) (User._id (User.stored u))
                           "logout" (user_agent req) (js_or (ip req) (remoteAddress req))
                           (Jwt.exp p * 1000)]) (db w))
    by (unfold after; rewrite Hrun; reflexivity).
  clear Hrun.
  exists (Signed p sig). split; [reflexivity|]. cbv zeta.
  assert (Hheld : Blacklist_lookup (db (after (logout req) w)) (Signed p sig) <> None).
  { rewrite Hdb.
    match goal with
    | |- context [(_ ++ [?e])%list] => exact (Blacklist_lookup_appended (db w) e)
    end. }
  clear Hdb H. set (w1 := after (logout req) w) in *. clearbody w1.
  split; [exact Hheld|]. split.
  - intros req2 u2 Ht2 Hu2.
    pose proof (logout_run req2 w1 p sig u2 Ht2 Hu2) as Hrun2.
    cbv zeta in Hrun2.
    destruct (Blacklist_lookup (db w1) (Signed p sig)) as [b|]; [|congruence].
    unfold result, after. rewrite Hrun2. cbn. auto.
  - intros now req2 Hb.
    destruct (Blacklist_lookup (db w1) (Signed p sig)) as [b|] eqn:Hl2; [|congruence].
    unfold result, after, route_logout, chain. rewrite bind_eq.
    rewrite (protect_blacklisted now req2 _ (Signed p sig) b Hb eq_refl Hl2).
    cbn. auto.
Qed.

(** ** Lockout guard: properties *)

Lemma update_first_by_id (us : list User.doc) (d : User.doc) (e : string)
    (f : User.doc -> User.doc) :
  NoDup (map User._id us) ->
  find (fun u => String.eqb (User.email u) e) us = Some d ->
  (forall x, User.email (f x) = User.email x /\ User._id (f x) = User._id x) ->
  find (fun u => String.eqb (User.email u) e)
       (update_first (fun u => String.eqb (User._id u) (User._id d)) f us)
  = Some (f d) /\
  map User._id (update_first (fun u => String.eqb (User._id u) (User._id d)) f us)
  = map User._id us.
Proof.
  intros Hnd Hfind Hf. induction us as [|x l IH]; [discriminate|].
  cbn [find] in Hfind. cbn [update_first]. inversion Hnd as [|? ? Hx Hl]; subst.
  destruct (String.eqb (User.email x) e) eqn:He.
  - injection Hfind as <-. rewrite String.eqb_refl. cbn [find map].
    destruct (Hf x) as [Hfe Hfi]. rewrite Hfe, He, Hfi. auto.
  - destruct (String.eqb (User._id x) (User._id d)) eqn:Hid.
    + exfalso. apply String.eqb_eq in Hid. apply Hx. rewrite Hid.
      apply in_map. apply find_some in Hfind. tauto.
    + cbn [find map]. rewrite He. destruct (IH Hl Hfind) as [IH1 IH2].
      rewrite IH1, IH2. auto.
Qed.

Lemma run_attempts_app (a b : list (Z * Req)) (w : World) :
  run_attempts (a ++ b) w = run_attempts b (run_attempts a w).
Proof.
  revert w. induction a as [|[t r] a IH]; intros w; cbn; [reflexivity|apply IH].
Qed.

(** One failed password check on an unlocked, active account. *)
Lemma login_failed_step (now : Z) (req : Req) (w : World) (d : User.doc) :
  unique_ids (db w) ->
  User_lookup_email (db w) (User.email d) = Some d ->
  User.status d = active ->
  User.lockUntil d = None ->
  failed_password_check d (now, req) ->
  let d' := set_lockout (User.loginAttempts d + 1)
              (if maxAttempts <=? User.loginAttempts d + 1
               then Some (now + lockTime) else None) d in
  result (login now req) w
  = Return (send (APIResponse_error (req_t "auth.invalidCredentials") 401)) /\
  unique_ids (db (after (login now req) w)) /\
  User_lookup_email (db (after (login now req) w)) (User.email d) = Some d'.
Proof.
  intros Hnd Hfind Hact Hlock [Hemail Hpw] d'. cbn [snd] in Hemail, Hpw.
  assert (Hrun : exists logs faults lines,
             login now req w
             = (Return (send (APIResponse_error (req_t "auth.invalidCredentials") 401)),
                with_audit
                  (log_call (call_AuditLog_create "failed_login")
                     (with_db (set_users
                                 (update_first
                                    (fun u => String.eqb (User._id u) (User._id d))
                                    (fun s => set_lockout (User.loginAttempts s + 1)
                                                (if maxAttempts <=? User.loginAttempts d + 1
                                                 then Some (now + lockTime)
                                                 else User.lockUntil s) s)
                                    (users (db w))) (db w))
                        (log_call (call_User_updateOne (User._id d))
                           (log_call (call_User_findOne (User.email d)) w))))
                  logs faults lines)).
  { unfold login. rewrite try_catch_eq, Hemail. repeat run_step.
    rewrite Hfind. cbn [option_map User_populate User.stored].
    unfold isLocked at 1. rewrite Hlock, Hact. cbn [Status_eqb negb].
    rewrite Hpw. cbn [negb]. repeat run_step.
    unfold incLoginAttempts, isLocked. rewrite Hlock. cbn [negb].
    rewrite Bool.andb_true_r.
    destruct (maxAttempts <=? User.loginAttempts d + 1);
      rewrite run_User_updateOne; cbv beta iota; rewrite bind_eq; run_audit;
      cbn [ret]; eauto. }
  destruct Hrun as (logs & faults & lines & Hrun).
  unfold result, after. rewrite Hrun. cbn [fst snd with_audit with_db log_call db].
  unfold unique_ids, User_lookup_email. cbn [set_users users].
  destruct (update_first_by_id (users (db w)) d (User.email d)
              (fun s => set_lockout (User.loginAttempts s + 1)
                          (if maxAttempts <=? User.loginAttempts d + 1
                           then Some (now + lockTime)
                           else User.lockUntil s) s) Hnd Hfind)
    as [Hf Hids].
  { intros x. split; reflexivity. }
  rewrite Hf, Hids. split; [reflexivity|]. split; [exact Hnd|].
  unfold d'. rewrite Hlock. reflexivity.
Qed.

(** A sixth attempt on a locked account. *)
Lemma login_locked (now : Z) (req : Req) (w : World) (d : User.doc) :
  User_lookup_email (db w) (body_email req) = Some d ->
  isLocked now d = true ->
  result (login now req) w
  = Return (send (APIResponse_error (req_t "user.accountLocked") 423)) /\
  db (after (login now req) w) = db w.
Proof.
  intros Hfind Hlocked.
  assert (Hrun : exists logs faults lines,
             login now req w
             = (Return (send (APIResponse_error (req_t "user.accountLocked") 423)),
                with_audit
                  (log_call (call_AuditLog_create "failed_login")
                     (log_call (call_User_findOne (body_email req)) w))
                  logs faults lines)).
  { unfold login. rewrite try_catch_eq. repeat run_step.
    rewrite Hfind. cbn [option_map User_populate User.stored]. rewrite Hlocked.
    rewrite bind_eq. run_audit. cbn [ret]. eauto. }
  destruct Hrun as (logs & faults & lines & Hrun).
  unfold result, after. rewrite Hrun. cbn. auto.
Qed.

Lemma failed_attempts_count (attempts : list (Z * Req)) :
  forall (w : World) (d : User.doc),
    unique_ids (db w) ->
    User_lookup_email (db w) (User.email d) = Some d ->
    User.status d = active ->
    User.lockUntil d = None ->
    User.loginAttempts d + Z.of_nat (List.length attempts) < maxAttempts ->
    Forall (failed_password_check d) attempts ->
    unique_ids (db (run_attempts attempts w)) /\
    User_lookup_email (db (run_attempts attempts w)) (User.email d)
    = Some (set_lockout (User.loginAttempts d + Z.of_nat (List.length attempts)) None d).
Proof.
  induction attempts as [|[t r] rest IH]; intros w d Hnd Hfind Hact Hlock Hlt Hall.
  - cbn. rewrite Z.add_0_r. split; [exact Hnd|]. rewrite Hfind. f_equal.
    destruct d; cbn in *. subst. reflexivity.
  - inversion Hall as [|? ? Hfirst Hrest]; subst.
    cbn [List.length] in Hlt. cbn [run_attempts].
    destruct (login_failed_step t r w d Hnd Hfind Hact Hlock Hfirst) as (_ & Hnd' & Hfind').
    destruct (Z.leb_spec maxAttempts (User.loginAttempts d + 1)) as [Hge|_]; [lia|].
    set (d1 := set_lockout (User.loginAttempts d + 1) None d) in *.
    assert (Hlt1 : User.loginAttempts d1 + Z.of_nat (List.length rest) < maxAttempts)
      by (cbn [d1 set_lockout User.loginAttempts]; lia).
    assert (Hall1 : Forall (failed_password_check d1) rest)
      by (revert Hrest; apply Forall_impl; intros a [Ha Hb]; split; [exact Ha|exact Hb]).
    destruct (IH (after (login t r) w) d1 Hnd' Hfind' Hact eq_refl Hlt1 Hall1)
      as [Hnd'' Hfind''].
    split; [exact Hnd''|]. cbn [d1 set_lockout User.email] in Hfind''.
    rewrite Hfind''. f_equal. unfold d1, set_lockout.
    cbn [User.loginAttempts User._id User.email User.password User.role_id
           User.additionalRole_ids User.status User.lastLogin List.length].
    f_equal. lia.
Qed.

(** C5. A principal that is unlocked with a zero failure counter is still
    unlocked after four consecutive failed password checks; the fifth one
    (at clock reading [t5]) sets the counter to 5 and the lock expiry to
    [t5] plus two hours; and any login attempt for that principal at a
    time before the lock expiry is answered 423, whatever password it
    carries, without touching the database. *)
Theorem C5_fifth_failure_locks_for_two_hours
    (w : World) (d : User.doc) (early : list (Z * Req)) (t5 : Z) (req5 : Req) :
  unique_ids (db w) ->
  User_lookup_email (db w) (User.email d) = Some d ->
  User.status d = active ->
  User.loginAttempts d = 0 ->
  User.lockUntil d = None ->
  List.length early = 4%nat ->
  Forall (failed_password_check d) (early ++ [(t5, req5)]) ->
  let w4 := run_attempts early w in
  let w5 := run_attempts (early ++ [(t5, req5)]) w in
  (exists d4 : User.doc,
      User_lookup_email (db w4) (User.email d) = Some d4 /\
      User.loginAttempts d4 = 4 /\ User.lockUntil d4 = None) /\
  (exists d5 : User.doc,
      User_lookup_email (db w5) (User.email d) = Some d5 /\
      User.loginAttempts d5 = 5 /\
      User.lockUntil d5 = Some (t5 + 2 * 60 * 60 * 1000) /\
      isLocked t5 d5 = true) /\
  (forall (t6 : Z) (req6 : Req),
      body_email req6 = User.email d ->
      t6 < t5 + 2 * 60 * 60 * 1000 ->
      result (login t6 req6) w5
      = Return (send (APIResponse_error (req_t "user.accountLocked") 423)) /\
      db (after (login t6 req6) w5) = db w5).
Proof.
  intros Hnd Hfind Hact Hzero Hlock Hlen Hall w4 w5.
  apply Forall_app in Hall. destruct Hall as [Hearly Hfifth].
  inversion Hfifth as [|? ? H5 _]; subst.
  destruct (failed_attempts_count early w d Hnd Hfind Hact Hlock) as [Hnd4 Hfind4];
    [rewrite Hzero, Hlen; cbn; unfold maxAttempts; lia|exact Hearly|].
  fold w4 in Hnd4, Hfind4. rewrite Hzero, Hlen in Hfind4. cbn [Z.of_nat Pos.of_succ_nat
    Pos.succ Z.add] in Hfind4.
  set (d4 := set_lockout 4 None d) in *.
  assert (H5' : failed_password_check d4 (t5, req5))
    by (destruct H5 as [Ha Hb]; split; [exact Ha|exact Hb]).
  destruct (login_failed_step t5 req5 w4 d4 Hnd4 Hfind4 Hact eq_refl H5')
    as (_ & Hnd5 & Hfind5).
  assert (Hw5 : w5 = after (login t5 req5) w4)
    by (unfold w5, w4; rewrite run_attempts_app; reflexivity).
  rewrite <- Hw5 in Hnd5, Hfind5. clearbody w5 w4.
  cbn [d4 set_lockout User.loginAttempts User.email] in Hfind5.
  change (maxAttempts <=? 4 + 1) with true in Hfind5. cbv iota in Hfind5.
  split; [|split].
  - exists d4. auto.
  - eexists. split; [exact Hfind5|]. split; [reflexivity|]. split; [reflexivity|].
    unfold isLocked, set_lockout, lockTime. cbn [User.lockUntil].
    destruct (Z.ltb_spec t5 (t5 + 2 * 60 * 60 * 1000)); [reflexivity|lia].
  - intros t6 req6 Hemail Hbefore.
    apply (login_locked t6 req6 w5 (set_lockout (4 + 1) (Some (t5 + lockTime)) d4)).
    + rewrite Hemail. exact Hfind5.
    + unfold isLocked, set_lockout, lockTime. cbn [User.lockUntil].
      destruct (Z.ltb_spec t6 (t5 + 2 * 60 * 60 * 1000)); [reflexivity|lia].
Qed.

(** ** Authorization gate: what lets a request through *)

(** X1. [protect] calls [next()] exactly when the request carries a
    non-empty bearer token that the ledger does not hold, that verifies,
    and whose principal exists, is active and is not locked; the request
    then continues with that principal, as populated from the database,
    and the raw token attached. *)
Theorem X1_protect_passes_exactly_when_all_checks_hold
    (now : Z) (req req' : Req) (w : World) :
  result (protect now req) w = Return (next req') <->
  exists (tok : Token) (claims : Jwt.payload) (d : User.doc),
    bearer_token req = Some tok /\
    falsy_token (Some tok) = false /\
    Blacklist_lookup (db w) tok = None /\
    jwt_verify_pure tok now = Return claims /\
    User_lookup (db w) (Jwt.id claims) = Some d /\
    User.status d = active /\
    isLocked now d = false /\
    req' = with_principal req (User_populate (db w) d) tok.
Proof.
  split.
  - intros H.
    destruct (protect_next_inv now req req' w H)
      as (tok & claims & d & Hb & Hl & Hv & Hd & Hs & Hk & Hreq).
    exists tok, claims, d.
    assert (Hf : falsy_token (Some tok) = false).
    { destruct (falsy_token (Some tok)) eqn:Hf; [|reflexivity].
      unfold result in H. rewrite (protect_without_token now req w) in H;
        [discriminate|]. rewrite Hb. exact Hf. }
    auto 10.
  - intros (tok & claims & d & Hb & Hf & Hl & Hv & Hd & Hs & Hk & ->).
    destruct (protect_verified now req w tok claims Hb Hf Hl Hv) as (Hr & _).
    rewrite Hr, Hd, Hs, Hk. reflexivity.
Qed.


(** X3. A request without an [Authorization] header, with a header that
    does not start with [Bearer], or with no or an empty credential after
    the scheme, is answered 401 without any store access: no ledger lookup
    is made and no audit record is written. *)
Theorem X3_protect_without_credential (now : Z) (req : Req) (w : World) :
  (authorization req = None \/
   exists h : Authorization,
     authorization req = Some h /\
     (prefix "Bearer" (scheme h) = false \/
      credentials h = None \/
      credentials h = Some (Opaque EmptyString))) ->
  protect now req w = (Return (send unauthorized), w).
Proof.
  intros H. apply protect_without_token. unfold bearer_token.
  destruct H as [->|(h & -> & [Hp|[Hc|Hc]])]; [reflexivity| | |].
  - rewrite Hp. reflexivity.
  - rewrite Hc. destruct (prefix "Bearer" (scheme h)); reflexivity.
  - rewrite Hc. destruct (prefix "Bearer" (scheme h)); reflexivity.
Qed.

(** X4. A token signed at clock reading [now] is expired from the second
    [now / 1000 + expiresIn] on: verification then fails with
    [TokenExpiredError], and the gate answers 401 TOKEN_EXPIRED (unless
    the ledger holds the token). *)
Theorem X4_issued_token_expires
    (id : ObjectId) (email role : string) (perms : list string) (now now' : Z)
    (req : Req) (w : World) :
  now / 1000 + jwt_expiresIn config <= now' / 1000 ->
  jwt_verify_pure (jwt_sign id email role perms now) now' = Throw TokenExpiredError /\
  (bearer_token req = Some (jwt_sign id email role perms now) ->
   Blacklist_lookup (db w) (jwt_sign id email role perms now) = None ->
   result (protect now' req) w
   = Return (send (res_json 401 (Text "Token expired") (Some "TOKEN_EXPIRED") []))).
Proof.
  intros Hexp.
  assert (Hv : jwt_verify_pure (jwt_sign id email role perms now) now'
               = Throw TokenExpiredError).
  { unfold jwt_verify_pure, jwt_sign. rewrite String.eqb_refl. cbn [Jwt.exp].
    destruct (Z.leb_spec (now / 1000 + jwt_expiresIn config) (now' / 1000));
      [reflexivity|lia]. }
  split; [exact Hv|]. intros Hb Hl.
  destruct (protect_verify_fails now' req w _ _ Hb eq_refl Hl Hv) as (Hr & _).
  exact Hr.
Qed.

(** ** Login: the other branches *)

(** A failed password check on an account that is not locked, whatever its
    counter and its earlier lock. *)
Lemma login_failed_unlocked (now : Z) (req : Req) (w : World) (d : User.doc) :
  unique_ids (db w) ->
  User_lookup_email (db w) (body_email req) = Some d ->
  isLocked now d = false ->
  User.status d = active ->
  comparePassword d (body_password req) = false ->
  result (login now req) w
  = Return (send (APIResponse_error (req_t "auth.invalidCredentials") 401)) /\
  users (db (after (login now req) w))
  = update_first (fun u => String.eqb (User._id u) (User._id d))
      (if match User.lockUntil d with Some t => t <? now | None => false end
       then set_lockout 1 None
       else if maxAttempts <=? User.loginAttempts d + 1
            then fun s => set_lockout (User.loginAttempts s + 1) (Some (now + lockTime)) s
            else fun s => set_lockout (User.loginAttempts s + 1) (User.lockUntil s) s)
      (users (db w)) /\
  roles (db (after (login now req) w)) = roles (db w) /\
  blacklistedTokens (db (after (login now req) w)) = blacklistedTokens (db w).
Proof.
  intros Hnd Hfind Hlocked Hact Hpw.
  assert (Hrun : exists w',
             login now req w
             = (Return (send (APIResponse_error (req_t "auth.invalidCredentials") 401)), w') /\
             db w'
             = set_users
                 (update_first (fun u => String.eqb (User._id u) (User._id d))
                    (if match User.lockUntil d with Some t => t <? now | None => false end
                     then set_lockout 1 None
                     else if maxAttempts <=? User.loginAttempts d + 1
                          then fun s => set_lockout (User.loginAttempts s + 1)
                                          (Some (now + lockTime)) s
                          else fun s => set_lockout (User.loginAttempts s + 1)
                                          (User.lockUntil s) s)
                    (users (db w))) (db w)).
  { unfold login. rewrite try_catch_eq. repeat run_step.
    rewrite Hfind. cbn [option_map User_populate User.stored].
    rewrite Hlocked, Hact. cbn [Status_eqb negb].
    rewrite Hpw. cbn [negb]. repeat run_step.
    unfold incLoginAttempts. rewrite Hlocked. cbn [negb]. rewrite Bool.andb_true_r.
    destruct (match User.lockUntil d with Some t => t <? now | None => false end);
      [|destruct (maxAttempts <=? User.loginAttempts d + 1)];
      rewrite run_User_updateOne; cbv beta iota; rewrite bind_eq; run_audit;
      cbn [ret]; eexists; split; reflexivity. }
  destruct Hrun as (w' & Hrun & Hdb).
  unfold result, after. rewrite Hrun. cbn [fst snd]. rewrite Hdb. cbn. auto.
Qed.

Lemma lookup_after_update (us : list User.doc) (d : User.doc) (e : string)
    (f : User.doc -> User.doc) :
  NoDup (map User._id us) ->
  find (fun u => String.eqb (User.email u) e) us = Some d ->
  (forall x, User.email (f x) = User.email x /\ User._id (f x) = User._id x) ->
  find (fun u => String.eqb (User.email u) e)
       (update_first (fun u => String.eqb (User._id u) (User._id d)) f us)
  = Some (f d).
Proof. intros H1 H2 H3. apply (update_first_by_id us d e f H1 H2 H3). Qed.

(** X5. A failed password check on an account whose lock has expired
    starts a fresh cycle: the answer is 401, the counter is set to 1 and
    the lock expiry is cleared. *)
Theorem X5_failure_after_lock_expiry_restarts_counter
    (now t : Z) (req : Req) (w : World) (d : User.doc) :
  unique_ids (db w) ->
  User_lookup_email (db w) (body_email req) = Some d ->
  User.lockUntil d = Some t ->
  t < now ->
  User.status d = active ->
  comparePassword d (body_password req) = false ->
  result (login now req) w
  = Return (send (APIResponse_error (req_t "auth.invalidCredentials") 401)) /\
  User_lookup_email (db (after (login now req) w)) (body_email req)
  = Some (set_lockout 1 None d).
Proof.
  intros Hnd Hfind Hlock Hlt Hact Hpw.
  assert (Hlocked : isLocked now d = false).
  { unfold isLocked. rewrite Hlock. destruct (Z.ltb_spec now t); [lia|reflexivity]. }
  destruct (login_failed_unlocked now req w d Hnd Hfind Hlocked Hact Hpw)
    as (Hr & Hu & _).
  split; [exact Hr|]. unfold User_lookup_email. rewrite Hu, Hlock.
  destruct (Z.ltb_spec t now); [|lia].
  apply lookup_after_update; [exact Hnd|exact Hfind|]. intros x. split; reflexivity.
Qed.




(** The password check succeeds: the handler up to the token. *)
Lemma login_password_ok (now : Z) (req : Req) (w : World) (d : User.doc) :
  User_lookup_email (db w) (body_email req) = Some d ->
  isLocked now d = false ->
  User.status d = active ->
  comparePassword d (body_password req) = true ->
  exists w' : World,
    login now req w
    = (match generateAuthToken (User_populate (db w) d) now with
       | Return tok =>
           Return (send (APIResponse_success (data_login (User_populate (db w) d) tok)
                           (req_t "auth.loginSuccess")))
       | Throw e => Return (next_error e)
       end, w') /\
    db w'
    = set_users
        (update_first (fun u => String.eqb (User._id u) (User._id d))
           (fun s => User.mkDoc (User._id s) (User.email s) (User.password s)
                       (User.role_id s) (User.additionalRole_ids s) (User.status s)
                       (Some now) 0 None)
           (users (db w))) (db w).
Proof.
  intros Hfind Hlocked Hact Hpw.
  unfold login. rewrite try_catch_eq. repeat run_step.
  rewrite Hfind. cbn [option_map]. cbn [User_populate User.stored].
  rewrite Hlocked, Hact. cbn [Status_eqb negb]. rewrite Hpw. cbn [negb].
  repeat run_step. unfold resetLoginAttempts. rewrite run_User_updateOne.
  cbv beta iota. rewrite bind_eq. unfold lift at 1.
  fold (User_populate (db w) d).
  destruct (generateAuthToken (User_populate (db w) d) now) as [tok|e].
  - rewrite bind_eq. run_audit. cbn [ret]. eexists; split; reflexivity.
  - cbn [ret]. eexists; split; reflexivity.
Qed.


(** X10. When the primary role of a principal no longer exists, a login
    with the right password ends in a [TypeError], answered 500 by the
    error handler, after the failure counter has been reset and the time
    of the login stored: the reset is not undone. *)
Theorem X10_login_with_dangling_role_fails_after_reset
    (now : Z) (req : Req) (w : World) (d : User.doc) :
  unique_ids (db w) ->
  User_lookup_email (db w) (body_email req) = Some d ->
  isLocked now d = false ->
  User.status d = active ->
  comparePassword d (body_password req) = true ->
  Role_lookup (db w) (User.role_id d) = None ->
  result (login now req) w
  = Return (next_error (TypeError "Cannot read properties of null (reading 'name')")) /\
  respond (next_error (TypeError "Cannot read properties of null (reading 'name')"))
  = Some (APIResponse_error (Text "Cannot read properties of null (reading 'name')") 500) /\
  User_lookup_email (db (after (login now req) w)) (body_email req)
  = Some (User.mkDoc (User._id d) (User.email d) (User.password d) (User.role_id d)
            (User.additionalRole_ids d) (User.status d) (Some now) 0 None).
Proof.
  intros Hnd Hfind Hlocked Hact Hpw Hrole.
  destruct (login_password_ok now req w d Hfind Hlocked Hact Hpw) as (w' & Hrun & Hdb).
  unfold result, after. rewrite Hrun. cbn [fst snd]. split; [|split].
  - unfold generateAuthToken, User_populate. cbn [User.role User.stored].
    rewrite Hrole. reflexivity.
  - reflexivity.
  - rewrite Hdb. unfold User_lookup_email. cbn [set_users users].
    rewrite (lookup_after_update _ d _ _ Hnd Hfind); [reflexivity|].
    intros x. split; reflexivity.
Qed.

(** ** Guards: further properties *)

Lemma guard_on_principal (u : User.t) (req : Req) (w : World) (ok : bool)
    (action resource : string) (details : list (string * JsValue))
    (status severity : string) (denied : Response) :
  result (x <- req_user (with_user u req) ;;
          if negb ok
          then createAuditLog (Some (User._id (User.stored u))) action resource details
                 (with_user u req) status severity ;;; ret (send denied)
          else ret (next (with_user u req))) w
  = Return (if ok then next (with_user u req) else send denied).
Proof.
  unfold result. rewrite bind_eq. cbn [req_user with_user user ret]. cbv beta iota.
  destruct ok; cbn [negb]; [reflexivity|].
  rewrite bind_eq. run_audit. reflexivity.
Qed.

Lemma run_requirePermission (u : User.t) (req : Req) (w : World) (permission : string) :
  result (requirePermission permission (with_user u req)) w
  = Return (if hasPermission u permission
            then next (with_user u req)
            else send (forbidden_permissions [permission])).
Proof.
  unfold requirePermission. apply (guard_on_principal u req w (hasPermission u permission)).
Qed.

Lemma run_requireAnyPermission (u : User.t) (req : Req) (w : World) (names : list string) :
  result (requireAnyPermission names (with_user u req)) w
  = Return (if hasAnyPermission u names
            then next (with_user u req)
            else send (forbidden_permissions names)).
Proof.
  unfold requireAnyPermission. apply (guard_on_principal u req w (hasAnyPermission u names)).
Qed.

Lemma run_requireAllPermissions (u : User.t) (req : Req) (w : World) (names : list string) :
  result (requireAllPermissions names (with_user u req)) w
  = Return (if hasAllPermissions u names
            then next (with_user u req)
            else send (forbidden_permissions names)).
Proof.
  unfold requireAllPermissions. apply (guard_on_principal u req w (hasAllPermissions u names)).
Qed.

Lemma hasPermission_In (u : User.t) (p : string) :
  hasPermission u p = true <-> In p (allPermissions u).
Proof. apply includes_In. Qed.

(** X11. With an empty list, "any of" is never satisfied and "all of" is
    always satisfied: [requireAnyPermission([])] refuses every principal
    with 403 and [requireAllPermissions([])] lets every principal
    through. *)
Theorem X11_guards_on_empty_permission_list (u : User.t) (req : Req) (w : World) :
  hasAnyPermission u [] = false /\
  hasAllPermissions u [] = true /\
  result (requireAnyPermission [] (with_user u req)) w
  = Return (send (forbidden_permissions [])) /\
  result (requireAllPermissions [] (with_user u req)) w
  = Return (next (with_user u req)).
Proof.
  split; [reflexivity|]. split; [reflexivity|]. split.
  - rewrite run_requireAnyPermission. reflexivity.
  - rewrite run_requireAllPermissions. reflexivity.
Qed.

(** X12. A principal has a permission exactly when its primary role or one
    of its additional roles holds a permission of that name; it has "any
    of" a list when it has one of the listed names and "all of" a list
    when it has every listed name. *)
Theorem X12_permission_checks_follow_the_roles (u : User.t) :
  (forall p : string,
      hasPermission u p = true <->
      (exists r, User.role u = Some r /\
                 In p (map Permission.name (Role.permissions r))) \/
      (exists r, In r (User.additionalRoles u) /\
                 In p (map Permission.name (Role.permissions r)))) /\
  (forall names : list string,
      hasAnyPermission u names = true <->
      exists p, In p names /\ hasPermission u p = true) /\
  (forall names : list string,
      hasAllPermissions u names = true <->
      forall p, In p names -> hasPermission u p = true).
Proof.
  split; [|split].
  - intros p. rewrite hasPermission_In. unfold allPermissions.
    rewrite fold_roles_In. destruct (User.role u) as [r|].
    + unfold add_role_permissions at 1. rewrite fold_Set_add_In. cbn [In]. split.
      * intros [[[]|H]|H]; [left; exists r; auto|right; exact H].
      * intros [[r' [Hr H]]|H]; [|right; exact H].
        injection Hr as <-. left. right. exact H.
    + cbn [In]. split.
      * intros [[]|H]. right. exact H.
      * intros [[r' [Hr _]]|H]; [discriminate|right; exact H].
  - intros names. unfold hasAnyPermission. rewrite existsb_exists. reflexivity.
  - intros names. unfold hasAllPermissions. rewrite forallb_forall. reflexivity.
Qed.

Lemma fold_Set_add_absorb (l s : list string) :
  (forall x, In x l -> In x s) -> fold_left Set_add l s = s.
Proof.
  revert s. induction l as [|x l IH]; intros s H; cbn [fold_left]; [reflexivity|].
  assert (Hx : Set_add s x = s).
  { unfold Set_add.
    replace (existsb (String.eqb x) s) with true; [reflexivity|].
    symmetry. apply existsb_exists. exists x. split;
      [apply H; now left|apply String.eqb_refl]. }
  rewrite Hx. apply IH. intros y Hy. apply H. now right.
Qed.

Lemma allPermissions_snoc (d : User.doc) (primary : option Role.t)
    (extras : list Role.t) (r : Role.t) :
  allPermissions (User.mk d primary (extras ++ [r]))
  = add_role_permissions (allPermissions (User.mk d primary extras)) r.
Proof.
  unfold allPermissions. cbn [User.role User.additionalRoles].
  rewrite fold_left_app. reflexivity.
Qed.

(** X13. Giving a principal one more additional role never takes a
    permission away; and giving it, as an additional role, a role it
    already holds as primary or additional role leaves its effective
    permission list exactly as it was. *)
Theorem X13_additional_roles_only_add
    (d : User.doc) (primary : option Role.t) (extras : list Role.t) (r : Role.t) :
  (forall p : string,
      hasPermission (User.mk d primary extras) p = true ->
      hasPermission (User.mk d primary (extras ++ [r])) p = true) /\
  (primary = Some r \/ In r extras ->
   allPermissions (User.mk d primary (extras ++ [r]))
   = allPermissions (User.mk d primary extras)).
Proof.
  split.
  - intros p. rewrite !hasPermission_In, allPermissions_snoc.
    unfold add_role_permissions. rewrite fold_Set_add_In. auto.
  - intros Hheld. rewrite allPermissions_snoc. unfold add_role_permissions.
    apply fold_Set_add_absorb. intros x Hx.
    unfold allPermissions. cbn [User.role User.additionalRoles].
    rewrite fold_roles_In. destruct Hheld as [->|Hin].
    + left. unfold add_role_permissions. rewrite fold_Set_add_In. now right.
    + right. exists r. auto.
Qed.

(** X14. [restrictTo] lets a principal through exactly when the name of
    its primary role is among the allowed names, whatever its additional
    roles, and otherwise answers 403 INSUFFICIENT_ROLE; with no allowed
    name it refuses everybody. *)
Theorem X14_restrictTo_reads_primary_role_name
    (d : User.doc) (r : Role.t) (extras : list Role.t) (names : list string)
    (req : Req) (w : World) :
  result (restrictTo names (with_user (User.mk d (Some r) extras) req)) w
  = Return (if includes names (Role.name (Role.stored r))
            then next (with_user (User.mk d (Some r) extras) req)
            else send (res_json 403 (req_t "errors.forbidden")
                         (Some "INSUFFICIENT_ROLE") [])) /\
  result (restrictTo [] (with_user (User.mk d (Some r) extras) req)) w
  = Return (send (res_json 403 (req_t "errors.forbidden") (Some "INSUFFICIENT_ROLE") [])).
Proof.
  assert (H : forall l,
             result (restrictTo l (with_user (User.mk d (Some r) extras) req)) w
             = Return (if includes l (Role.name (Role.stored r))
                       then next (with_user (User.mk d (Some r) extras) req)
                       else send (res_json 403 (req_t "errors.forbidden")
                                    (Some "INSUFFICIENT_ROLE") []))).
  { intros l. unfold result, restrictTo. rewrite bind_eq.
    cbn [req_user with_user user ret]. cbv beta iota. rewrite bind_eq.
    cbn [req_user_role User.role ret]. cbv beta iota.
    destruct (includes l (Role.name (Role.stored r))); cbn [negb]; [reflexivity|].
    rewrite bind_eq. run_audit. reflexivity. }
  split; [apply H|]. rewrite H. reflexivity.
Qed.

(** X15. A guard reached by a request that carries no principal (a route
    without [protect] in front) throws instead of answering: none of the
    five guards lets the request through, and nothing is written.  The
    role and level guards throw likewise for a principal whose primary
    role no longer exists. *)
Theorem X15_guards_throw_without_principal
    (req : Req) (w : World) (permission : string) (names : list string) :
  user req = None ->
  (exists m, requirePermission permission req w = (Throw (TypeError m), w)) /\
  (exists m, requireAnyPermission names req w = (Throw (TypeError m), w)) /\
  (exists m, requireAllPermissions names req w = (Throw (TypeError m), w)) /\
  (exists m, restrictTo names req w = (Throw (TypeError m), w)) /\
  (exists m, requireSuperAdmin req w = (Throw (TypeError m), w)) /\
  (forall (d : User.doc) (extras : list Role.t),
      (exists m, restrictTo names (with_user (User.mk d None extras) req) w
                 = (Throw (TypeError m), w)) /\
      (exists m, requireSuperAdmin (with_user (User.mk d None extras) req) w
                 = (Throw (TypeError m), w))).
Proof.
  intros Hu.
  unfold requirePermission, requireAnyPermission, requireAllPermissions, restrictTo,
    requireSuperAdmin, req_user. rewrite Hu.
  repeat split; eexists; reflexivity.
Qed.

(** X16. [adminOnly] lets through exactly the principals holding
    [system:manage], [adminOrModerator] exactly those holding
    [system:manage] or [user:manage]; so whoever passes [adminOnly] also
    passes [adminOrModerator]. *)
Theorem X16_adminOnly_and_adminOrModerator (u : User.t) (req : Req) (w : World) :
  (result (adminOnly (with_user u req)) w = Return (next (with_user u req)) <->
   In "system:manage" (allPermissions u)) /\
  (result (adminOrModerator (with_user u req)) w = Return (next (with_user u req)) <->
   In "system:manage" (allPermissions u) \/ In "user:manage" (allPermissions u)) /\
  (result (adminOnly (with_user u req)) w = Return (next (with_user u req)) ->
   result (adminOrModerator (with_user u req)) w = Return (next (with_user u req))).
Proof.
  assert (H1 : result (adminOnly (with_user u req)) w
               = Return (if hasPermission u "system:manage"
                         then next (with_user u req)
                         else send (forbidden_permissions ["system:manage"]))).
  { unfold adminOnly. apply run_requirePermission. }
  assert (H2 : result (adminOrModerator (with_user u req)) w
               = Return (if hasAnyPermission u ["system:manage"; "user:manage"]
                         then next (with_user u req)
                         else send (forbidden_permissions ["system:manage"; "user:manage"]))).
  { unfold adminOrModerator. apply run_requireAnyPermission. }
  assert (E1 : result (adminOnly (with_user u req)) w = Return (next (with_user u req)) <->
               In "system:manage" (allPermissions u)).
  { rewrite H1, <- hasPermission_In.
    destruct (hasPermission u "system:manage"); split; congruence. }
  assert (E2 : result (adminOrModerator (with_user u req)) w
               = Return (next (with_user u req)) <->
               In "system:manage" (allPermissions u) \/ In "user:manage" (allPermissions u)).
  { rewrite H2, <- !includes_In. unfold hasAnyPermission. cbn [existsb].
    rewrite Bool.orb_false_r.
    destruct (includes (allPermissions u) "system:manage"),
      (includes (allPermissions u) "user:manage"); cbn; split; intros H;
      try reflexivity; try discriminate; auto; destruct H; discriminate. }
  split; [exact E1|]. split; [exact E2|].
  intros H. apply E2. left. apply E1. exact H.
Qed.

(** ** What a handler leaves in place *)

Section StepsWithin.

Variable R : World -> World -> Prop.
Hypothesis R_refl : forall w, R w w.
Hypothesis R_trans : forall w1 w2 w3, R w1 w2 -> R w2 w3 -> R w1 w3.

Lemma within_ret {A} (a : A) : steps_within R (ret a).
Proof. intros w. apply R_refl. Qed.

Lemma within_throw {A} (e : Exn) : steps_within R (@throw A e).
Proof. intros w. apply R_refl. Qed.

Lemma within_lift {A} (c : Completion A) : steps_within R (lift c).
Proof. intros w. apply R_refl. Qed.

Lemma within_get_db : steps_within R get_db.
Proof. intros w. apply R_refl. Qed.

Lemma within_bind {A B} (m : M A) (k : A -> M B) :
  steps_within R m -> (forall a, steps_within R (k a)) -> steps_within R (bind m k).
Proof.
  intros Hm Hk w. unfold after. rewrite bind_eq.
  specialize (Hm w). unfold after in Hm.
  destruct (m w) as [[a|e] w']; cbn [snd] in Hm |- *.
  - apply (R_trans _ _ _ Hm). apply (Hk a w').
  - exact Hm.
Qed.

Lemma within_try_catch {A} (m : M A) (h : Exn -> M A) :
  steps_within R m -> (forall e, steps_within R (h e)) -> steps_within R (try_catch m h).
Proof.
  intros Hm Hh w. unfold after. rewrite try_catch_eq.
  specialize (Hm w). unfold after in Hm.
  destruct (m w) as [[a|e] w']; cbn [snd] in Hm |- *.
  - exact Hm.
  - apply (R_trans _ _ _ Hm). apply (Hh e w').
Qed.

Lemma within_chain (h1 h2 : Req -> M Handled) (req : Req) :
  (forall q, steps_within R (h1 q)) -> (forall q, steps_within R (h2 q)) ->
  steps_within R (chain h1 h2 req).
Proof.
  intros H1 H2. unfold chain. apply within_bind; [apply H1|].
  intros [q|r|e]; [apply H2| |]; apply within_ret.
Qed.

End StepsWithin.

Ltac within_step leaf :=
  first
    [ leaf
    | apply within_ret; assumption
    | apply within_throw; assumption
    | apply within_lift; assumption
    | apply within_get_db; assumption
    | apply within_bind; [assumption| |intros ?]
    | apply within_try_catch; [assumption| |intros ?]
    | match goal with
      | |- steps_within _ (match ?x with _ => _ end) => destruct x
      | |- steps_within _ (if ?b then _ else _) => destruct b
      end ].

(** *** The audit collection *)

Lemma audit_grows_refl (w : World) : audit_grows w w.
Proof. exists []. rewrite app_nil_r. auto. Qed.

Lemma audit_grows_trans (w1 w2 w3 : World) :
  audit_grows w1 w2 -> audit_grows w2 w3 -> audit_grows w1 w3.
Proof.
  intros (l1 & E1 & V1) (l2 & E2 & V2). exists (l1 ++ l2)%list.
  rewrite E2, E1, app_assoc. split; [reflexivity|]. apply Forall_app. auto.
Qed.

Lemma audit_same_refl (w : World) : audit_same w w.
Proof. reflexivity. Qed.

Lemma audit_same_trans (w1 w2 w3 : World) :
  audit_same w1 w2 -> audit_same w2 w3 -> audit_same w1 w3.
Proof. unfold audit_same. congruence. Qed.

(** What the sink writes, exactly. *)
Lemma createAuditLog_writes (userId : option ObjectId) (action resource : string)
    (details : list (string * JsValue)) (req : Req) (status severity : string)
    (w : World) (a : AuditLog.doc) :
  a = AuditLog.mk userId action resource
        (match lookup_key "resourceId" details with
         | Some (JStr s) => js_or (Some s) None
         | _ => None
         end)
        details
        (js_or_default (js_or (ip req) (remoteAddress req)) "unknown")
        (js_or_default (user_agent req) "unknown")
        status severity ->
  auditLogs (after (createAuditLog userId action resource details req status severity) w)
  = match AuditLog_validate a, auditFaults w with
    | [], true :: _ => auditLogs w
    | [], _ => (auditLogs w ++ [a])%list
    | _ :: _, _ => auditLogs w
    end.
Proof.
  intros ->. unfold after, createAuditLog, try_catch, AuditLog_create, bind, record_call.
  cbn [AuditLog.action].
  match goal with |- context [AuditLog_validate ?a] => destruct (AuditLog_validate a) end.
  - unfold AuditLog_insert. cbn [auditFaults log_call].
    destruct (auditFaults w) as [|[|] script]; reflexivity.
  - reflexivity.
Qed.

Lemma audit_grows_createAuditLog (userId : option ObjectId) (action resource : string)
    (details : list (string * JsValue)) (req : Req) (status severity : string) :
  steps_within audit_grows
    (createAuditLog userId action resource details req status severity).
Proof.
  intros w. unfold audit_grows.
  rewrite (createAuditLog_writes userId action resource details req status severity w
             _ eq_refl).
  match goal with |- context [AuditLog_validate ?a] =>
    destruct (AuditLog_validate a) eqn:Hv end.
  - destruct (auditFaults w) as [|[|] script].
    + eexists. split; [reflexivity|]. constructor; [exact Hv|constructor].
    + exists []. rewrite app_nil_r. auto.
    + eexists. split; [reflexivity|]. constructor; [exact Hv|constructor].
  - exists []. rewrite app_nil_r. auto.
Qed.

Lemma audit_grows_set_db (d : Db) : steps_within audit_grows (set_db d).
Proof. intros w. exists []. cbn. rewrite app_nil_r. auto. Qed.

Lemma audit_grows_record_call (c : Call) : steps_within audit_grows (record_call c).
Proof. intros w. exists []. cbn. rewrite app_nil_r. auto. Qed.

Lemma audit_grows_console_error (line : string) :
  steps_within audit_grows (console_error line).
Proof. intros w. exists []. cbn. rewrite app_nil_r. auto. Qed.

Lemma audit_same_set_db (d : Db) : steps_within audit_same (set_db d).
Proof. intros w. reflexivity. Qed.

Lemma audit_same_record_call (c : Call) : steps_within audit_same (record_call c).
Proof. intros w. reflexivity. Qed.

Lemma audit_same_unknown_action (userId : option ObjectId) (action resource : string)
    (details : list (string * JsValue)) (req : Req) (status severity : string) :
  includes AuditLog.action_enum action = false ->
  steps_within audit_same
    (createAuditLog userId action resource details req status severity).
Proof.
  intros Hbad w. unfold audit_same.
  rewrite (createAuditLog_writes userId action resource details req status severity w
             _ eq_refl).
  match goal with |- context [AuditLog_validate ?a] =>
    destruct (AuditLog_validate a) eqn:Hv end; [|reflexivity].
  exfalso. unfold AuditLog_validate in Hv. cbn [AuditLog.action AuditLog.userId] in Hv.
  apply app_eq_nil in Hv. destruct Hv as [_ Hv].
  apply app_eq_nil in Hv. destruct Hv as [_ Hv].
  apply app_eq_nil in Hv. destruct Hv as [Hv _].
  unfold enum_string in Hv. rewrite Hbad in Hv. discriminate.
Qed.



Ltac audit_same_leaf :=
  first [ apply audit_same_set_db
        | apply audit_same_record_call
        | apply audit_same_unknown_action; reflexivity ].

Ltac audit_grows_leaf :=
  first [ apply audit_grows_set_db
        | apply audit_grows_record_call
        | apply audit_grows_console_error
        | apply audit_grows_createAuditLog ].

(** X18. Deleting a role and assigning a role are never recorded: their
    action tags ([role_delete], [user_role_change]) are not in the
    AuditLog enumeration, so the write is rejected by the schema and
    swallowed, and the audit collection is the same after the handler as
    before, on every path. *)
Theorem X18_role_deletion_and_assignment_leave_no_audit_record (req : Req) (w : World) :
  includes AuditLog.action_enum "role_delete" = false /\
  includes AuditLog.action_enum "user_role_change" = false /\
  auditLogs (after (deleteRole req) w) = auditLogs w /\
  auditLogs (after (assignRole req) w) = auditLogs w.
Proof.
  pose proof audit_same_refl as Hrefl. pose proof audit_same_trans as Htrans.
  split; [reflexivity|]. split; [reflexivity|]. split.
  - assert (H : steps_within audit_same (deleteRole req)); [|exact (H w)].
    unfold deleteRole, Role_findById, User_countDocuments_role, Role_findByIdAndDelete,
      req_user.
    repeat within_step audit_same_leaf.
  - assert (H : steps_within audit_same (assignRole req)); [|exact (H w)].
    unfold assignRole, User_findById, Role_findById, User_save_role, req_user,
      req_user_role.
    repeat within_step audit_same_leaf.
Qed.

Lemma audit_grows_protect (now : Z) (req : Req) : steps_within audit_grows (protect now req).
Proof.
  pose proof audit_grows_refl as Hrefl. pose proof audit_grows_trans as Htrans.
  unfold protect, BlacklistedToken_findOne, jwt_verify, User_findById.
  repeat within_step audit_grows_leaf.
Qed.

(** X19. Audit records are never removed or altered: the gate, the guards
    and the handlers leave every record of the audit collection in place
    and add, after them, only records the schema accepts. *)
Theorem X19_audit_collection_is_append_only
    (bcrypt_hash : string -> string -> string) (now : Z) (req : Req)
    (salt currentPassword newPassword permission : string) (names : list string) :
  steps_within audit_grows (protect now req) /\
  steps_within audit_grows (requirePermission permission req) /\
  steps_within audit_grows (requireAnyPermission names req) /\
  steps_within audit_grows (requireAllPermissions names req) /\
  steps_within audit_grows (restrictTo names req) /\
  steps_within audit_grows (requireSuperAdmin req) /\
  steps_within audit_grows (login now req) /\
  steps_within audit_grows (logout req) /\
  steps_within audit_grows (forceLogoutAll req) /\
  steps_within audit_grows (changePassword bcrypt_hash salt currentPassword newPassword req) /\
  steps_within audit_grows (deleteUser req) /\
  steps_within audit_grows (deleteRole req) /\
  steps_within audit_grows (assignRole req).
Proof.
  pose proof audit_grows_refl as Hrefl. pose proof audit_grows_trans as Htrans.
  repeat apply conj.
  - apply audit_grows_protect.
  - unfold requirePermission, req_user. repeat within_step audit_grows_leaf.
  - unfold requireAnyPermission, req_user. repeat within_step audit_grows_leaf.
  - unfold requireAllPermissions, req_user. repeat within_step audit_grows_leaf.
  - unfold restrictTo, req_user, req_user_role. repeat within_step audit_grows_leaf.
  - unfold requireSuperAdmin, req_user, req_user_role. repeat within_step audit_grows_leaf.
  - unfold login, User_findOne, incLoginAttempts, resetLoginAttempts, User_updateOne.
    repeat within_step audit_grows_leaf.
  - unfold logout, BlacklistedToken_create. repeat within_step audit_grows_leaf.
  - unfold forceLogoutAll, BlacklistedToken_create. repeat within_step audit_grows_leaf.
  - unfold changePassword, User_findById, User_save_password, BlacklistedToken_create,
      req_user.
    repeat within_step audit_grows_leaf.
  - unfold deleteUser, User_findByIdAndDelete, req_user, req_user_role.
    repeat within_step audit_grows_leaf.
  - unfold deleteRole, Role_findById, User_countDocuments_role, Role_findByIdAndDelete,
      req_user.
    repeat within_step audit_grows_leaf.
  - unfold assignRole, User_findById, Role_findById, User_save_role, req_user,
      req_user_role.
    repeat within_step audit_grows_leaf.
Qed.

(** *** The revocation ledger *)

Lemma ledger_grows_refl (w : World) : ledger_grows w w.
Proof. exists []. now rewrite app_nil_r. Qed.

Lemma ledger_grows_trans (w1 w2 w3 : World) :
  ledger_grows w1 w2 -> ledger_grows w2 w3 -> ledger_grows w1 w3.
Proof.
  intros (l1 & E1) (l2 & E2). exists (l1 ++ l2)%list. now rewrite E2, E1, app_assoc.
Qed.

Lemma ledger_grows_record_call (c : Call) : steps_within ledger_grows (record_call c).
Proof. intros w. exists []. cbn. now rewrite app_nil_r. Qed.

Lemma ledger_grows_console_error (line : string) :
  steps_within ledger_grows (console_error line).
Proof. intros w. exists []. cbn. now rewrite app_nil_r. Qed.

Lemma ledger_grows_createAuditLog (userId : option ObjectId) (action resource : string)
    (details : list (string * JsValue)) (req : Req) (status severity : string) :
  steps_within ledger_grows
    (createAuditLog userId action resource details req status severity).
Proof.
  intros w. exists [].
  destruct (createAuditLog_returns userId action resource details req status severity w)
    as (_ & Hdb & _).
  rewrite Hdb. now rewrite app_nil_r.
Qed.

Lemma ledger_grows_modify (f : Db -> Db) :
  (forall d, blacklistedTokens (f d) = blacklistedTokens d) ->
  steps_within ledger_grows (bind get_db (fun d => set_db (f d))).
Proof. intros Hf w. exists []. cbn. now rewrite Hf, app_nil_r. Qed.

Lemma ledger_grows_BlacklistedToken_create (b : BlacklistedToken.doc) :
  steps_within ledger_grows (BlacklistedToken_create b).
Proof.
  intros w. unfold after, BlacklistedToken_create. rewrite bind_eq.
  unfold record_call at 1. cbv beta iota.
  destruct (falsy_token (Some (BlacklistedToken.token b))).
  - exists []. cbn. now rewrite app_nil_r.
  - rewrite bind_eq. unfold get_db at 1. cbv beta iota. cbn [log_call db].
    destruct (Blacklist_lookup (db w) (BlacklistedToken.token b)).
    + exists []. cbn. now rewrite app_nil_r.
    + exists [b]. reflexivity.
Qed.

Lemma ledger_grows_User_findByIdAndDelete (id : ObjectId) :
  steps_within ledger_grows (User_findByIdAndDelete id).
Proof.
  intros w. unfold after, User_findByIdAndDelete. rewrite bind_eq.
  unfold get_db at 1. cbv beta iota.
  destruct (User_lookup (db w) id); exists []; cbn; now rewrite app_nil_r.
Qed.

Ltac ledger_grows_leaf :=
  first [ apply ledger_grows_record_call
        | apply ledger_grows_console_error
        | apply ledger_grows_createAuditLog
        | apply ledger_grows_BlacklistedToken_create
        | apply ledger_grows_User_findByIdAndDelete
        | apply ledger_grows_modify; intros ?; reflexivity ].

Lemma ledger_grows_protect (now : Z) (req : Req) : steps_within ledger_grows (protect now req).
Proof.
  pose proof ledger_grows_refl as Hrefl. pose proof ledger_grows_trans as Htrans.
  unfold protect, BlacklistedToken_findOne, jwt_verify, User_findById.
  repeat within_step ledger_grows_leaf.
Qed.

Lemma find_app_found {A} (p : A -> bool) (l1 l2 : list A) (x : A) :
  find p l1 = Some x -> find p (l1 ++ l2) = Some x.
Proof.
  induction l1 as [|y l1 IH]; [discriminate|]. cbn [app find].
  destruct (p y); [auto|exact IH].
Qed.

Lemma Blacklist_lookup_grows (w w' : World) (tok : Token) (b : BlacklistedToken.doc) :
  ledger_grows w w' ->
  Blacklist_lookup (db w) tok = Some b ->
  Blacklist_lookup (db w') tok = Some b.
Proof.
  intros (l & E) H. unfold Blacklist_lookup. rewrite E.
  apply find_app_found. exact H.
Qed.

(** X20. No handler removes or replaces a ledger entry: the gate, login,
    logout, forced logout, password change, user deletion, role deletion
    and role assignment at most append to the ledger.  Hence a token that
    the ledger holds is still held, with the same entry, after any of
    them, and the gate keeps answering it 401 TOKEN_BLACKLISTED. *)
Theorem X20_revocation_is_permanent
    (bcrypt_hash : string -> string -> string) (now : Z) (req : Req)
    (salt currentPassword newPassword : string) :
  (steps_within ledger_grows (protect now req) /\
   steps_within ledger_grows (login now req) /\
   steps_within ledger_grows (logout req) /\
   steps_within ledger_grows (forceLogoutAll req) /\
   steps_within ledger_grows (changePassword bcrypt_hash salt currentPassword newPassword req) /\
   steps_within ledger_grows (deleteUser req) /\
   steps_within ledger_grows (deleteRole req) /\
   steps_within ledger_grows (assignRole req)) /\
  (forall (w w' : World) (tok : Token) (b : BlacklistedToken.doc),
      ledger_grows w w' ->
      Blacklist_lookup (db w) tok = Some b ->
      Blacklist_lookup (db w') tok = Some b /\
      forall (now' : Z) (req' : Req),
        bearer_token req' = Some tok ->
        falsy_token (Some tok) = false ->
        result (protect now' req') w'
        = Return (send (res_json 401 (Text "Token has been invalidated")
                          (Some "TOKEN_BLACKLISTED") []))).
Proof.
  pose proof ledger_grows_refl as Hrefl. pose proof ledger_grows_trans as Htrans.
  split.
  - repeat apply conj.
    + apply ledger_grows_protect.
    + unfold login, User_findOne, incLoginAttempts, resetLoginAttempts, User_updateOne.
      repeat within_step ledger_grows_leaf.
    + unfold logout. repeat within_step ledger_grows_leaf.
    + unfold forceLogoutAll. repeat within_step ledger_grows_leaf.
    + unfold changePassword, User_findById, User_save_password, req_user.
      repeat within_step ledger_grows_leaf.
    + unfold deleteUser, req_user, req_user_role. repeat within_step ledger_grows_leaf.
    + unfold deleteRole, Role_findById, User_countDocuments_role, Role_findByIdAndDelete,
        req_user.
      repeat within_step ledger_grows_leaf.
    + unfold assignRole, User_findById, Role_findById, User_save_role, req_user,
        req_user_role.
      repeat within_step ledger_grows_leaf.
  - intros w w' tok b Hg Hl.
    pose proof (Blacklist_lookup_grows w w' tok b Hg Hl) as Hl'.
    split; [exact Hl'|]. intros now' req' Hb Hf.
    unfold result. rewrite (protect_blacklisted now' req' w' tok b Hb Hf Hl'). reflexivity.
Qed.








(** ** Password change *)




(** ** Deleting users and roles *)

Lemma find_remove_first_unique {A} (key : A -> string) (id : string) (l : list A) :
  NoDup (map key l) ->
  find (fun x => String.eqb (key x) id) (remove_first (fun x => String.eqb (key x) id) l)
  = None.
Proof.
  intros Hnd. induction l as [|x l IH]; [reflexivity|].
  inversion Hnd as [|? ? Hx Hl]; subst. cbn [remove_first].
  destruct (String.eqb (key x) id) eqn:Hk.
  - apply String.eqb_eq in Hk.
    destruct (find (fun y => String.eqb (key y) id) l) as [y|] eqn:Hf; [|reflexivity].
    exfalso. apply find_some in Hf. destruct Hf as [Hin Hy].
    apply String.eqb_eq in Hy. apply Hx. rewrite Hk, <- Hy. now apply in_map.
  - cbn [find]. rewrite Hk. apply IH. exact Hl.
Qed.

Lemma find_remove_first_other {A} (key : A -> string) (id id' : string) (l : list A) :
  id' <> id ->
  find (fun x => String.eqb (key x) id') (remove_first (fun x => String.eqb (key x) id) l)
  = find (fun x => String.eqb (key x) id') l.
Proof.
  intros Hne. induction l as [|x l IH]; [reflexivity|]. cbn [remove_first find].
  destruct (String.eqb (key x) id) eqn:Hk.
  - apply String.eqb_eq in Hk.
    destruct (String.eqb (key x) id') eqn:Hk'; [|reflexivity].
    apply String.eqb_eq in Hk'. congruence.
  - cbn [find]. destruct (String.eqb (key x) id'); [reflexivity|exact IH].
Qed.

(** X25. A principal cannot delete its own account: the request is
    answered 400 and nothing at all happens, not even a query. *)
Theorem X25_deleteUser_refuses_self_deletion (req : Req) (w : World) (actor : User.t) :
  user req = Some actor ->
  params_id req = User._id (User.stored actor) ->
  deleteUser req w
  = (Return (send (APIResponse_error (Text "You cannot delete your own account") 400)), w).
Proof.
  intros Hu Hid. unfold deleteUser, req_user. rewrite try_catch_eq, Hu, bind_eq.
  cbn [ret]. cbv beta iota. rewrite Hid, String.eqb_refl. reflexivity.
Qed.

(** X26. Deleting another principal removes its document and nothing
    else; a token of the deleted principal that still verifies and was
    never revoked is from then on answered 401 by the gate, the principal
    being gone. *)
Theorem X26_deleteUser_removes_user_and_strands_its_tokens
    (req : Req) (w : World) (actor : User.t) (d : User.doc) (r : Role.doc) :
  unique_ids (db w) ->
  user req = Some actor ->
  params_id req <> User._id (User.stored actor) ->
  User_lookup (db w) (params_id req) = Some d ->
  Role_lookup (db w) (User.role_id d) = Some r ->
  result (deleteUser req) w = Return (send (APIResponse_deleted (req_t "auth.userDeleted"))) /\
  User_lookup (db (after (deleteUser req) w)) (params_id req) = None /\
  (forall id : ObjectId,
      id <> params_id req ->
      User_lookup (db (after (deleteUser req) w)) id = User_lookup (db w) id) /\
  roles (db (after (deleteUser req) w)) = roles (db w) /\
  blacklistedTokens (db (after (deleteUser req) w)) = blacklistedTokens (db w) /\
  (forall (now : Z) (req' : Req) (tok : Token) (claims : Jwt.payload),
      bearer_token req' = Some tok ->
      falsy_token (Some tok) = false ->
      Blacklist_lookup (db w) tok = None ->
      jwt_verify_pure tok now = Return claims ->
      Jwt.id claims = params_id req ->
      result (protect now req') (after (deleteUser req) w) = Return (send unauthorized)).
Proof.
  intros Hnd Hu Hne Hd Hr.
  assert (Hrun : exists w',
             deleteUser req w
             = (Return (send (APIResponse_deleted (req_t "auth.userDeleted"))), w') /\
             db w'
             = set_users (remove_first (fun u => String.eqb (User._id u) (params_id req))
                            (users (db w))) (db w)).
  { unfold deleteUser, req_user. rewrite try_catch_eq, Hu, bind_eq.
    cbn [ret]. cbv beta iota.
    destruct (String.eqb_spec (params_id req) (User._id (User.stored actor)));
      [congruence|].
    rewrite bind_eq. unfold User_findByIdAndDelete. rewrite bind_eq.
    unfold get_db at 1. cbv beta iota. rewrite Hd. rewrite bind_eq.
    unfold set_db at 1. cbv beta iota. cbn [ret]. cbv beta iota.
    rewrite bind_eq. unfold req_user_role, User_populate. cbn [User.role].
    rewrite Hr. cbn [option_map ret]. cbv beta iota.
    rewrite bind_eq. run_audit. cbn [ret]. eexists; split; reflexivity. }
  destruct Hrun as (w' & Hrun & Hdb).
  unfold result, after. rewrite Hrun. cbn [fst snd]. rewrite Hdb.
  assert (Hgone : User_lookup
                    (set_users (remove_first
                                  (fun u => String.eqb (User._id u) (params_id req))
                                  (users (db w))) (db w)) (params_id req) = None).
  { unfold User_lookup. cbn [set_users users].
    apply (find_remove_first_unique User._id). exact Hnd. }
  split; [reflexivity|]. split; [exact Hgone|]. split; [|split; [reflexivity|split]].
  - intros id Hid. unfold User_lookup. cbn [set_users users].
    apply (find_remove_first_other User._id). exact Hid.
  - reflexivity.
  - intros now req' tok claims Hb Hf Hl Hv Hid.
    assert (Hl' : Blacklist_lookup (db w') tok = None) by (rewrite Hdb; exact Hl).
    destruct (protect_verified now req' w' tok claims Hb Hf Hl' Hv) as (Hres & _).
    unfold result in Hres. rewrite Hres, Hid, Hdb, Hgone. reflexivity.
Qed.

(** X27. Deleting a role that is not a system role and is nobody's
    primary role succeeds and removes the role, and only it, from the
    roles collection, without touching any user document.  Principals
    that held it as an additional role keep the dangling reference and,
    from the next query on, are populated without it. *)
Theorem X27_deleteRole_removes_unused_role
    (req : Req) (w : World) (actor : User.t) (r : Role.doc) :
  unique_role_ids (db w) ->
  user req = Some actor ->
  Role_lookup (db w) (params_id req) = Some r ->
  Role.isSystemRole r = false ->
  filter (fun u => String.eqb (User.role_id u) (Role._id r)) (users (db w)) = [] ->
  result (deleteRole req) w
  = Return (send (APIResponse_deleted (Text "Role deleted successfully"))) /\
  Role_lookup (db (after (deleteRole req) w)) (params_id req) = None /\
  (forall id : ObjectId,
      id <> params_id req ->
      Role_lookup (db (after (deleteRole req) w)) id = Role_lookup (db w) id) /\
  users (db (after (deleteRole req) w)) = users (db w) /\
  (forall u : User.doc,
      User.additionalRoles (User_populate (db (after (deleteRole req) w)) u)
      = filter (fun r' => negb (String.eqb (Role._id (Role.stored r')) (params_id req)))
          (User.additionalRoles (User_populate (db w) u))).
Proof.
  intros Hnd Hu Hr Hsys Hnone.
  assert (Hrun : exists w',
             deleteRole req w
             = (Return (send (APIResponse_deleted (Text "Role deleted successfully"))), w') /\
             db w'
             = set_roles (remove_first (fun x => String.eqb (Role._id x) (params_id req))
                            (roles (db w))) (db w)).
  { unfold deleteRole. rewrite try_catch_eq. repeat run_step.
    rewrite (run_Role_lookup_populate _ _ _ Hr). cbv beta iota.
    cbn [Role_populate Role.stored]. rewrite Hsys. repeat run_step.
    cbn [log_call db]. rewrite Hnone. cbn [List.length Nat.ltb Nat.leb].
    rewrite bind_eq. unfold Role_findByIdAndDelete. rewrite bind_eq.
    unfold record_call at 1. cbv beta iota. rewrite bind_eq. unfold get_db at 1.
    cbv beta iota. unfold set_db at 1. cbv beta iota. cbn [log_call db].
    rewrite bind_eq. unfold req_user. rewrite Hu. cbn [ret]. cbv beta iota.
    rewrite bind_eq. run_audit. cbn [ret]. eexists; split; reflexivity. }
  destruct Hrun as (w' & Hrun & Hdb).
  unfold result, after. rewrite Hrun. cbn [fst snd]. rewrite Hdb.
  set (d' := set_roles (remove_first (fun x => String.eqb (Role._id x) (params_id req))
                          (roles (db w))) (db w)).
  assert (Hgone : Role_lookup d' (params_id req) = None).
  { unfold Role_lookup, d'. cbn [set_roles roles].
    apply (find_remove_first_unique Role._id). exact Hnd. }
  assert (Hother : forall id, id <> params_id req -> Role_lookup d' id = Role_lookup (db w) id).
  { intros id Hid. unfold Role_lookup, d'. cbn [set_roles roles].
    apply (find_remove_first_other Role._id). exact Hid. }
  assert (Hpop : forall x, Role_populate d' x = Role_populate (db w) x) by reflexivity.
  split; [reflexivity|]. split; [exact Hgone|]. split; [exact Hother|].
  split; [reflexivity|].
  intros u. unfold User_populate. cbn [User.additionalRoles].
  induction (User.additionalRole_ids u) as [|id ids IH]; [reflexivity|].
  cbn [flat_map]. rewrite filter_app, IH. f_equal.
  destruct (String.eqb_spec id (params_id req)) as [->|Hid].
  - rewrite Hgone, Hr. cbn [option_map option_to_list filter Role_populate Role.stored].
    assert (Hrid : Role._id r = params_id req).
    { unfold Role_lookup in Hr. apply find_some in Hr. destruct Hr as [_ Hr].
      now apply String.eqb_eq. }
    rewrite Hrid, String.eqb_refl. reflexivity.
  - rewrite (Hother id Hid).
    destruct (Role_lookup (db w) id) as [x|] eqn:Hx; [|reflexivity].
    cbn [option_map option_to_list filter]. rewrite Hpop.
    cbn [Role_populate Role.stored].
    assert (Hxid : Role._id x = id).
    { unfold Role_lookup in Hx. apply find_some in Hx. destruct Hx as [_ Hx].
      now apply String.eqb_eq. }
    rewrite Hxid. destruct (String.eqb_spec id (params_id req)); [congruence|].
    reflexivity.
Qed.

(** ** Routes behind the gate *)

Lemma protect_result_cases (now : Z) (req : Req) (w : World) :
  (exists req', result (protect now req) w = Return (next req')) \/
  (exists r, result (protect now req) w = Return (send r)).
Proof.
  destruct (falsy_token (bearer_token req)) eqn:Hf.
  { right. unfold result. rewrite (protect_without_token now req w Hf). cbn [fst]. eauto. }
  destruct (bearer_token req) as [tok|] eqn:Hb; [|discriminate].
  destruct (Blacklist_lookup (db w) tok) as [b|] eqn:Hl.
  { right. unfold result. rewrite (protect_blacklisted now req w tok b Hb Hf Hl). cbn [fst]. eauto. }
  destruct (jwt_verify_pure tok now) as [claims|e] eqn:Hv.
  - destruct (protect_verified now req w tok claims Hb Hf Hl Hv) as (Hr & _).
    rewrite Hr. destruct (User_lookup (db w) (Jwt.id claims)) as [d|]; [|eauto].
    destruct (negb (Status_eqb (User.status d) active)); [eauto|].
    destruct (isLocked now d); eauto.
  - destruct (protect_verify_fails now req w tok e Hb Hf Hl Hv) as (Hr & _).
    rewrite Hr. eauto.
Qed.

(** X28. A handler mounted behind [protect] runs only for a request that
    passed every check of the gate, and then on the request with the
    verified principal and the raw token attached; for any other request
    the handler is not run at all and the route answers what [protect]
    answers. *)
Theorem X28_handlers_behind_protect_run_only_for_verified_principals
    (h : Req -> M Handled) (now : Z) (req : Req) (w : World) :
  (exists (tok : Token) (claims : Jwt.payload) (d : User.doc),
      bearer_token req = Some tok /\
      Blacklist_lookup (db w) tok = None /\
      jwt_verify_pure tok now = Return claims /\
      User_lookup (db w) (Jwt.id claims) = Some d /\
      User.status d = active /\
      isLocked now d = false /\
      chain (protect now) h req w
      = h (with_principal req (User_populate (db w) d) tok) (after (protect now req) w)) \/
  (chain (protect now) h req w = protect now req w /\
   exists r : Response, result (protect now req) w = Return (send r)).
Proof.
  destruct (protect_result_cases now req w) as [[req' Hr]|[r Hr]].
  - left.
    destruct (protect_next_inv now req req' w Hr)
      as (tok & claims & d & Hb & Hl & Hv & Hd & Hs & Hk & ->).
    exists tok, claims, d. repeat (split; [assumption|]).
    unfold chain, after. rewrite bind_eq. unfold result in Hr.
    destruct (protect now req w) as [c w']. cbn [fst snd] in Hr |- *. rewrite Hr.
    reflexivity.
  - right. split; [|eauto].
    unfold chain. rewrite bind_eq. unfold result in Hr.
    destruct (protect now req w) as [c w']. cbn [fst] in Hr. rewrite Hr. reflexivity.
Qed.

End Core.

(** ** The seeded database: evaluations *)

(** C9 at the seeded editor: issued at 1700000000000 ms, verified a
    minute later. *)
Lemma C9_verify_of_issued_token_witness :
  generateAuthToken sample_config sample_hmac (User_populate seed_db user_alice)
    1700000000000
  = Return (jwt_sign sample_config sample_hmac "c02" "alice@adminpanel.com" "editor"
              ["user:read"; "content:create"; "content:read"; "content:update"]
              1700000000000) /\
  1700000060000 / 1000 < 1700000000000 / 1000 + jwt_expiresIn sample_config /\
  exists claims : Jwt.payload,
    jwt_verify_pure sample_config sample_hmac
      (jwt_sign sample_config sample_hmac "c02" "alice@adminpanel.com" "editor"
         ["user:read"; "content:create"; "content:read"; "content:update"]
         1700000000000) 1700000060000 = Return claims /\
    result (jwt_verify sample_config sample_hmac
              (jwt_sign sample_config sample_hmac "c02" "alice@adminpanel.com" "editor"
                 ["user:read"; "content:create"; "content:read"; "content:update"]
                 1700000000000) 1700000060000) seed_world
    = Return claims /\
    db (after (jwt_verify sample_config sample_hmac
                 (jwt_sign sample_config sample_hmac "c02" "alice@adminpanel.com" "editor"
                    ["user:read"; "content:create"; "content:read"; "content:update"]
                    1700000000000) 1700000060000) seed_world)
    = db seed_world /\
    Jwt.id claims = User._id (User.stored (User_populate seed_db user_alice)) /\
    Jwt.permissions claims = allPermissions (User_populate seed_db user_alice).
Proof.
  split; [reflexivity|]. split; [reflexivity|].
  apply (C9_verify_of_issued_token sample_config sample_hmac
           (User_populate seed_db user_alice) 1700000000000 1700000060000
           (jwt_sign sample_config sample_hmac "c02" "alice@adminpanel.com" "editor"
              ["user:read"; "content:create"; "content:read"; "content:update"]
              1700000000000)
           seed_world); reflexivity.
Defined.

(** C10 at the seeded super administrator. *)
Lemma C10_requireSuperAdmin_witness :
  user (with_user (User_populate seed_db user_root) sample_req)
  = Some (User_populate seed_db user_root) /\
  User.role (User_populate seed_db user_root)
  = Some (Role_populate seed_db role_super_admin) /\
  (result (requireSuperAdmin (with_user (User_populate seed_db user_root) sample_req))
     seed_world
   = Return (next (with_user (User_populate seed_db user_root) sample_req)) <->
   90 <= Role.level (Role.stored (Role_populate seed_db role_super_admin))).
Proof.
  split; [reflexivity|]. split; [reflexivity|].
  apply (C10_requireSuperAdmin_reads_primary_level_only
           (with_user (User_populate seed_db user_root) sample_req)
           (User_populate seed_db user_root)
           (Role_populate seed_db role_super_admin) seed_world); reflexivity.
Defined.

(** C2 at a request of the seeded editor. *)
Lemma C2_ledger_lookup_witness :
  bearer_token
    (with_bearer (jwt_sign sample_config sample_hmac "c02" "alice@adminpanel.com" "editor"
                    ["user:read"; "content:create"; "content:read"; "content:update"]
                    1700000000000) sample_req)
  = Some (jwt_sign sample_config sample_hmac "c02" "alice@adminpanel.com" "editor"
            ["user:read"; "content:create"; "content:read"; "content:update"]
            1700000000000) /\
  falsy_token
    (Some (jwt_sign sample_config sample_hmac "c02" "alice@adminpanel.com" "editor"
             ["user:read"; "content:create"; "content:read"; "content:update"]
             1700000000000)) = false /\
  exists rest : list Call,
    calls (after (protect sample_config sample_hmac 1700000060000
                    (with_bearer
                       (jwt_sign sample_config sample_hmac "c02" "alice@adminpanel.com"
                          "editor"
                          ["user:read"; "content:create"; "content:read"; "content:update"]
                          1700000000000) sample_req)) seed_world)
    = call_BlacklistedToken_findOne
        (jwt_sign sample_config sample_hmac "c02" "alice@adminpanel.com" "editor"
           ["user:read"; "content:create"; "content:read"; "content:update"]
           1700000000000) :: rest.
Proof.
  split; [reflexivity|]. split; [reflexivity|].
  destruct (C2_ledger_lookup_precedes_verification sample_config sample_hmac
              1700000060000
              (with_bearer
                 (jwt_sign sample_config sample_hmac "c02" "alice@adminpanel.com" "editor"
                    ["user:read"; "content:create"; "content:read"; "content:update"]
                    1700000000000) sample_req)
              seed_world
              (jwt_sign sample_config sample_hmac "c02" "alice@adminpanel.com" "editor"
                 ["user:read"; "content:create"; "content:read"; "content:update"]
                 1700000000000) eq_refl eq_refl) as [rest [Hcalls _]].
  exists rest. exact Hcalls.
Defined.

(** C2, as first stated, fails: a token whose signature does not verify
    is looked up in the ledger, and the lookup comes before the
    verification. *)
Lemma C2_counterexample :
  jwt_verify_pure sample_config sample_hmac
    (Signed (Jwt.mkPayload "c02" "alice@adminpanel.com" "editor" ["system:manage"]
               1700000000 1700604800) "forged")
    1700000060000
  = Throw (JsonWebTokenError "invalid signature") /\
  calls (after (protect sample_config sample_hmac 1700000060000
                  (with_bearer
                     (Signed (Jwt.mkPayload "c02" "alice@adminpanel.com" "editor"
                                ["system:manage"] 1700000000 1700604800) "forged")
                     sample_req)) seed_world)
  = [ call_BlacklistedToken_findOne
        (Signed (Jwt.mkPayload "c02" "alice@adminpanel.com" "editor" ["system:manage"]
                   1700000000 1700604800) "forged");
      call_jwt_verify
        (Signed (Jwt.mkPayload "c02" "alice@adminpanel.com" "editor" ["system:manage"]
                   1700000000 1700604800) "forged") ] /\
  result (protect sample_config sample_hmac 1700000060000
            (with_bearer
               (Signed (Jwt.mkPayload "c02" "alice@adminpanel.com" "editor"
                          ["system:manage"] 1700000000 1700604800) "forged")
               sample_req)) seed_world
  = Return (send (res_json 401 (Text "Invalid token") (Some "TOKEN_INVALID") [])).
Proof. repeat split; vm_compute; reflexivity. Qed.

(** C1 at a request of the seeded editor for a route guarded by
    [user:read]. *)
Lemma C1_guards_read_live_permissions_witness :
  result (protect sample_config sample_hmac 1700000060000
            (with_bearer
               (jwt_sign sample_config sample_hmac "c02" "alice@adminpanel.com" "editor"
                  ["user:read"; "content:create"; "content:read"; "content:update"]
                  1700000000000) sample_req)) seed_world
  = Return (next (with_principal
                    (with_bearer
                       (jwt_sign sample_config sample_hmac "c02" "alice@adminpanel.com"
                          "editor"
                          ["user:read"; "content:create"; "content:read"; "content:update"]
                          1700000000000) sample_req)
                    (User_populate seed_db user_alice)
                    (jwt_sign sample_config sample_hmac "c02" "alice@adminpanel.com"
                       "editor"
                       ["user:read"; "content:create"; "content:read"; "content:update"]
                       1700000000000))) /\
  exists (tok : Token) (claims : Jwt.payload) (d : User.doc),
    bearer_token
      (with_bearer
         (jwt_sign sample_config sample_hmac "c02" "alice@adminpanel.com" "editor"
            ["user:read"; "content:create"; "content:read"; "content:update"]
            1700000000000) sample_req) = Some tok /\
    jwt_verify_pure sample_config sample_hmac tok 1700000060000 = Return claims /\
    User_lookup (db seed_world) (Jwt.id claims) = Some d.
Proof.
  split; [vm_compute; reflexivity|].
  destruct (C1_guards_read_live_permissions sample_config sample_hmac 1700000060000
              (with_bearer
                 (jwt_sign sample_config sample_hmac "c02" "alice@adminpanel.com" "editor"
                    ["user:read"; "content:create"; "content:read"; "content:update"]
                    1700000000000) sample_req)
              (with_principal
                 (with_bearer
                    (jwt_sign sample_config sample_hmac "c02" "alice@adminpanel.com"
                       "editor"
                       ["user:read"; "content:create"; "content:read"; "content:update"]
                       1700000000000) sample_req)
                 (User_populate seed_db user_alice)
                 (jwt_sign sample_config sample_hmac "c02" "alice@adminpanel.com"
                    "editor"
                    ["user:read"; "content:create"; "content:read"; "content:update"]
                    1700000000000))
              seed_world)
    as (tok & claims & d & Hb & Hv & Hd & _).
  - vm_compute. reflexivity.
  - exists tok, claims, d. auto.
Defined.

(** C1, as first stated, fails: the editor's token carries [user:read];
    once the super administrator has assigned her the role [user], the
    same token is refused on a route guarded by [user:read]. *)
Lemma C1_counterexample :
  generateAuthToken sample_config sample_hmac (User_populate seed_db user_alice)
    1700000000000
  = Return (jwt_sign sample_config sample_hmac "c02" "alice@adminpanel.com" "editor"
              ["user:read"; "content:create"; "content:read"; "content:update"]
              1700000000000) /\
  result (assignRole
            (with_user (User_populate seed_db user_root)
               (with_body_roleId "b03" (with_params_id "c02" sample_req))))
         seed_world
  = Return (send (APIResponse_success (data_user "c02")
                    (Text "Role assigned successfully"))) /\
  result (gate sample_config sample_hmac "user:read" 1700000060000
            (with_bearer
               (jwt_sign sample_config sample_hmac "c02" "alice@adminpanel.com" "editor"
                  ["user:read"; "content:create"; "content:read"; "content:update"]
                  1700000000000) sample_req))
         (after (assignRole
                   (with_user (User_populate seed_db user_root)
                      (with_body_roleId "b03" (with_params_id "c02" sample_req))))
                seed_world)
  = Return (send (forbidden_permissions ["user:read"])).
Proof. repeat split; vm_compute; reflexivity. Qed.

(** C4 at the logout of the seeded editor. *)
Lemma C4_second_revocation_witness :
  result (logout
            (with_principal sample_req (User_populate seed_db user_alice)
               (jwt_sign sample_config sample_hmac "c02" "alice@adminpanel.com" "editor"
                  ["user:read"; "content:create"; "content:read"; "content:update"]
                  1700000000000))) seed_world
  = Return (send (APIResponse_success data_null (req_t "auth.logoutSuccess"))) /\
  exists tok : Token,
    token (with_principal sample_req (User_populate seed_db user_alice)
             (jwt_sign sample_config sample_hmac "c02" "alice@adminpanel.com" "editor"
                ["user:read"; "content:create"; "content:read"; "content:update"]
                1700000000000)) = Some tok /\
    Blacklist_lookup
      (db (after (logout
                    (with_principal sample_req (User_populate seed_db user_alice)
                       (jwt_sign sample_config sample_hmac "c02" "alice@adminpanel.com"
                          "editor"
                          ["user:read"; "content:create"; "content:read"; "content:update"]
                          1700000000000))) seed_world)) tok <> None.
Proof.
  split; [vm_compute; reflexivity|].
  destruct (C4_second_revocation_keeps_ledger_but_fails sample_config sample_hmac
              (with_principal sample_req (User_populate seed_db user_alice)
                 (jwt_sign sample_config sample_hmac "c02" "alice@adminpanel.com" "editor"
                    ["user:read"; "content:create"; "content:read"; "content:update"]
                    1700000000000)) seed_world)
    as (tok & Ht & Hheld & _).
  - vm_compute. reflexivity.
  - exists tok. auto.
Defined.

(** C4, as first stated, fails: the second logout with the same token is
    not a success.  The handler ends in a duplicate-key error, answered 400
    by the error handler; through the gate it is answered 401. *)
Lemma C4_counterexample :
  result (logout
            (with_principal sample_req (User_populate seed_db user_alice)
               (jwt_sign sample_config sample_hmac "c02" "alice@adminpanel.com" "editor"
                  ["user:read"; "content:create"; "content:read"; "content:update"]
                  1700000000000))) seed_world
  = Return (send (APIResponse_success data_null (req_t "auth.logoutSuccess"))) /\
  option_map respond
    (match
        result (logout
                  (with_principal sample_req (User_populate seed_db user_alice)
                     (jwt_sign sample_config sample_hmac "c02" "alice@adminpanel.com"
                        "editor"
                        ["user:read"; "content:create"; "content:read"; "content:update"]
                        1700000000000)))
               (after (logout
                         (with_principal sample_req (User_populate seed_db user_alice)
                            (jwt_sign sample_config sample_hmac "c02"
                               "alice@adminpanel.com" "editor"
                               ["user:read"; "content:create"; "content:read";
                                "content:update"]
                               1700000000000))) seed_world)
      with
      | Return h => Some h
      | Throw _ => None
      end)
  = Some (Some (APIResponse_error (Text "Token already exists") 400)) /\
  result (route_logout sample_config sample_hmac 1700000060000
            (with_bearer
               (jwt_sign sample_config sample_hmac "c02" "alice@adminpanel.com" "editor"
                  ["user:read"; "content:create"; "content:read"; "content:update"]
                  1700000000000) sample_req))
         (after (logout
                   (with_principal sample_req (User_populate seed_db user_alice)
                      (jwt_sign sample_config sample_hmac "c02" "alice@adminpanel.com"
                         "editor"
                         ["user:read"; "content:create"; "content:read"; "content:update"]
                         1700000000000))) seed_world)
  = Return (send (res_json 401 (Text "Token has been invalidated")
                    (Some "TOKEN_BLACKLISTED") [])).
Proof. repeat split; vm_compute; reflexivity. Qed.

(** C8 at the operator-created role [reviewer], primary role of one
    principal. *)
Lemma C8_deleteRole_refused_witness :
  Role_lookup (db seed_world) (params_id (with_params_id "b04" sample_req))
  = Some role_reviewer /\
  Role.isSystemRole role_reviewer = false /\
  (0 < List.length (filter (fun u => String.eqb (User.role_id u) (Role._id role_reviewer))
                      (users (db seed_world))))%nat /\
  result (deleteRole (with_params_id "b04" sample_req)) seed_world
  = Return (send (APIResponse_error
                    (Text "Cannot delete role. 1 users are assigned to this role") 400)) /\
  db (after (deleteRole (with_params_id "b04" sample_req)) seed_world) = db seed_world /\
  auditLogs (after (deleteRole (with_params_id "b04" sample_req)) seed_world)
  = auditLogs seed_world.
Proof.
  split; [reflexivity|]. split; [reflexivity|]. split; [vm_compute; lia|].
  apply (C8_deleteRole_refused_when_primary_role_of_users
           (with_params_id "b04" sample_req) seed_world role_reviewer eq_refl).
  - reflexivity.
  - vm_compute. lia.
Defined.

(** C8, as first stated, fails: the system role [user] is the primary
    role of two principals, and the refusal does not mention the count. *)
Lemma C8_counterexample :
  Role_lookup seed_db "b03" = Some role_user /\
  List.length (filter (fun u => String.eqb (User.role_id u) "b03") (users seed_db))
  = 2%nat /\
  result (deleteRole (with_params_id "b03" sample_req)) seed_world
  = Return (send (APIResponse_error (Text "System roles cannot be deleted") 400)) /\
  index 0 (decimal 2) "System roles cannot be deleted" = None.
Proof. repeat split; vm_compute; reflexivity. Qed.

(** C5 at the seeded editor: five wrong passwords a second apart, then
    the right password one second later. *)
Lemma C5_fifth_failure_witness :
  unique_ids (db seed_world) /\
  User_lookup_email (db seed_world) (User.email user_alice) = Some user_alice /\
  User.status user_alice = active /\
  User.loginAttempts user_alice = 0 /\
  User.lockUntil user_alice = None /\
  List.length
    [ (1700000001000, with_credentials "alice@adminpanel.com" "guess1" sample_req);
      (1700000002000, with_credentials "alice@adminpanel.com" "guess2" sample_req);
      (1700000003000, with_credentials "alice@adminpanel.com" "guess3" sample_req);
      (1700000004000, with_credentials "alice@adminpanel.com" "guess4" sample_req) ]
  = 4%nat /\
  Forall (failed_password_check sample_bcrypt_compare user_alice)
    ([ (1700000001000, with_credentials "alice@adminpanel.com" "guess1" sample_req);
       (1700000002000, with_credentials "alice@adminpanel.com" "guess2" sample_req);
       (1700000003000, with_credentials "alice@adminpanel.com" "guess3" sample_req);
       (1700000004000, with_credentials "alice@adminpanel.com" "guess4" sample_req) ]
     ++ [ (1700000005000, with_credentials "alice@adminpanel.com" "guess5" sample_req) ]) /\
  body_email (with_credentials "alice@adminpanel.com" "Alice123!" sample_req)
  = User.email user_alice /\
  sample_bcrypt_compare "Alice123!" (User.password user_alice) = true /\
  1700000006000 < 1700000005000 + 2 * 60 * 60 * 1000 /\
  result (login sample_config sample_hmac sample_bcrypt_compare 1700000006000
            (with_credentials "alice@adminpanel.com" "Alice123!" sample_req))
      (run_attempts sample_config sample_hmac sample_bcrypt_compare
         ([ (1700000001000, with_credentials "alice@adminpanel.com" "guess1" sample_req);
            (1700000002000, with_credentials "alice@adminpanel.com" "guess2" sample_req);
            (1700000003000, with_credentials "alice@adminpanel.com" "guess3" sample_req);
            (1700000004000, with_credentials "alice@adminpanel.com" "guess4" sample_req) ]
          ++ [ (1700000005000,
                with_credentials "alice@adminpanel.com" "guess5" sample_req) ])
         seed_world)
    = Return (send (APIResponse_error (req_t "user.accountLocked") 423)).
Proof.
  assert (Hids : unique_ids (db seed_world)).
  { unfold unique_ids. cbn. repeat constructor; cbn; intuition discriminate. }
  assert (Hall : Forall (failed_password_check sample_bcrypt_compare user_alice)
            ([ (1700000001000, with_credentials "alice@adminpanel.com" "guess1" sample_req);
               (1700000002000, with_credentials "alice@adminpanel.com" "guess2" sample_req);
               (1700000003000, with_credentials "alice@adminpanel.com" "guess3" sample_req);
               (1700000004000, with_credentials "alice@adminpanel.com" "guess4" sample_req) ]
             ++ [ (1700000005000,
                   with_credentials "alice@adminpanel.com" "guess5" sample_req) ])).
  { repeat constructor. }
  repeat (split; [assumption || reflexivity|]).
  apply (C5_fifth_failure_locks_for_two_hours sample_config sample_hmac
           sample_bcrypt_compare seed_world user_alice
           [ (1700000001000, with_credentials "alice@adminpanel.com" "guess1" sample_req);
             (1700000002000, with_credentials "alice@adminpanel.com" "guess2" sample_req);
             (1700000003000, with_credentials "alice@adminpanel.com" "guess3" sample_req);
             (1700000004000, with_credentials "alice@adminpanel.com" "guess4" sample_req) ]
           1700000005000 (with_credentials "alice@adminpanel.com" "guess5" sample_req)
           Hids eq_refl eq_refl eq_refl eq_refl eq_refl Hall); reflexivity.
Defined.

(** ** The sample databases: further evaluations *)

(** X3 at a request without [Authorization] header. *)
Lemma X3_protect_without_credential_witness :
  authorization sample_req = None /\
  protect sample_config sample_hmac 1700000060000 sample_req seed_world
  = (Return (send unauthorized), seed_world).
Proof.
  split; [reflexivity|].
  apply (X3_protect_without_credential sample_config sample_hmac 1700000060000
           sample_req seed_world).
  left. reflexivity.
Defined.

(** X4 at a token of the seeded editor, eight days after it was issued. *)
Lemma X4_issued_token_expires_witness :
  1700000000000 / 1000 + jwt_expiresIn sample_config <= 1700691200000 / 1000 /\
  jwt_verify_pure sample_config sample_hmac
    (jwt_sign sample_config sample_hmac "c02" "alice@adminpanel.com" "editor"
       ["user:read"] 1700000000000) 1700691200000
  = Throw TokenExpiredError.
Proof.
  assert (H : 1700000000000 / 1000 + jwt_expiresIn sample_config <= 1700691200000 / 1000)
    by (vm_compute; discriminate).
  split; [exact H|].
  destruct (X4_issued_token_expires sample_config sample_hmac "c02" "alice@adminpanel.com"
              "editor" ["user:read"] 1700000000000 1700691200000 sample_req seed_world H)
    as [Hv _].
  exact Hv.
Defined.

(** X5 at the account locked until 1700000000000, one second later. *)
Lemma X5_failure_after_lock_expiry_witness :
  unique_ids (db states_world) /\
  User_lookup_email (db states_world)
    (body_email (with_credentials "erin@adminpanel.com" "guess" sample_req))
  = Some user_erin /\
  User.lockUntil user_erin = Some 1700000000000 /\
  1700000000000 < 1700000001000 /\
  User.status user_erin = active /\
  comparePassword sample_bcrypt_compare user_erin
    (body_password (with_credentials "erin@adminpanel.com" "guess" sample_req)) = false /\
  User_lookup_email
    (db (after (login sample_config sample_hmac sample_bcrypt_compare 1700000001000
                  (with_credentials "erin@adminpanel.com" "guess" sample_req))
               states_world))
    (body_email (with_credentials "erin@adminpanel.com" "guess" sample_req))
  = Some (set_lockout 1 None user_erin).
Proof.
  assert (Hids : unique_ids (db states_world)).
  { unfold unique_ids. cbn. repeat constructor; cbn; intuition discriminate. }
  repeat (split; [assumption || reflexivity|]).
  destruct (X5_failure_after_lock_expiry_restarts_counter sample_config sample_hmac
              sample_bcrypt_compare 1700000001000 1700000000000
              (with_credentials "erin@adminpanel.com" "guess" sample_req)
              states_world user_erin Hids eq_refl eq_refl eq_refl eq_refl eq_refl)
    as [_ H].
  exact H.
Defined.





(** X10 at the account whose primary role is gone, with its right
    password. *)
Lemma X10_login_with_dangling_role_witness :
  unique_ids (db states_world) /\
  User_lookup_email (db states_world)
    (body_email (with_credentials "gina@adminpanel.com" "Gina123!" sample_req))
  = Some user_gina /\
  isLocked 1700000000000 user_gina = false /\
  User.status user_gina = active /\
  comparePassword sample_bcrypt_compare user_gina
    (body_password (with_credentials "gina@adminpanel.com" "Gina123!" sample_req)) = true /\
  Role_lookup (db states_world) (User.role_id user_gina) = None /\
  result (login sample_config sample_hmac sample_bcrypt_compare 1700000000000
            (with_credentials "gina@adminpanel.com" "Gina123!" sample_req)) states_world
  = Return (next_error (TypeError "Cannot read properties of null (reading 'name')")).
Proof.
  assert (Hids : unique_ids (db states_world)).
  { unfold unique_ids. cbn. repeat constructor; cbn; intuition discriminate. }
  repeat (split; [assumption || reflexivity|]).
  destruct (X10_login_with_dangling_role_fails_after_reset sample_config sample_hmac
              sample_bcrypt_compare 1700000000000
              (with_credentials "gina@adminpanel.com" "Gina123!" sample_req)
              states_world user_gina Hids eq_refl eq_refl eq_refl eq_refl eq_refl)
    as [H _].
  exact H.
Defined.

(** X15 at a request that did not go through [protect]. *)
Lemma X15_guards_throw_without_principal_witness :
  user sample_req = None /\
  exists m : string,
    requireSuperAdmin sample_req seed_world = (Throw (TypeError m), seed_world).
Proof.
  split; [reflexivity|].
  destruct (X15_guards_throw_without_principal sample_req seed_world "user:read"
              ["user:read"] eq_refl)
    as (_ & _ & _ & _ & H & _).
  exact H.
Defined.





(** X25 at the super administrator asking to delete itself. *)
Lemma X25_deleteUser_self_witness :
  user (with_user (User_populate seed_db user_root) (with_params_id "c01" sample_req))
  = Some (User_populate seed_db user_root) /\
  params_id (with_user (User_populate seed_db user_root) (with_params_id "c01" sample_req))
  = User._id (User.stored (User_populate seed_db user_root)) /\
  deleteUser (with_user (User_populate seed_db user_root) (with_params_id "c01" sample_req))
    seed_world
  = (Return (send (APIResponse_error (Text "You cannot delete your own account") 400)),
     seed_world).
Proof.
  repeat (split; [reflexivity|]).
  apply (X25_deleteUser_refuses_self_deletion
           (with_user (User_populate seed_db user_root) (with_params_id "c01" sample_req))
           seed_world (User_populate seed_db user_root) eq_refl eq_refl).
Defined.

(** X26 at the super administrator deleting the seeded reviewer. *)
Lemma X26_deleteUser_witness :
  unique_ids (db seed_world) /\
  user (with_user (User_populate seed_db user_root) (with_params_id "c05" sample_req))
  = Some (User_populate seed_db user_root) /\
  params_id (with_user (User_populate seed_db user_root) (with_params_id "c05" sample_req))
  <> User._id (User.stored (User_populate seed_db user_root)) /\
  User_lookup (db seed_world)
    (params_id (with_user (User_populate seed_db user_root)
                  (with_params_id "c05" sample_req)))
  = Some user_dave /\
  Role_lookup (db seed_world) (User.role_id user_dave) = Some role_reviewer /\
  result (deleteUser (with_user (User_populate seed_db user_root)
                        (with_params_id "c05" sample_req))) seed_world
  = Return (send (APIResponse_deleted (req_t "auth.userDeleted"))) /\
  User_lookup
    (db (after (deleteUser (with_user (User_populate seed_db user_root)
                              (with_params_id "c05" sample_req))) seed_world)) "c05"
  = None.
Proof.
  assert (Hids : unique_ids (db seed_world)).
  { unfold unique_ids. cbn. repeat constructor; cbn; intuition discriminate. }
  assert (Hne : params_id (with_user (User_populate seed_db user_root)
                             (with_params_id "c05" sample_req))
                <> User._id (User.stored (User_populate seed_db user_root)))
    by discriminate.
  repeat (split; [assumption || reflexivity|]).
  destruct (X26_deleteUser_removes_user_and_strands_its_tokens sample_config sample_hmac
              (with_user (User_populate seed_db user_root) (with_params_id "c05" sample_req))
              seed_world (User_populate seed_db user_root) user_dave role_reviewer
              Hids eq_refl Hne eq_refl eq_refl)
    as (H1 & H2 & _).
  first [exact H2 | split; [exact H1|exact H2]].
Defined.

(** X27 at the super administrator deleting the role [auditor], which one
    principal holds as an additional role. *)
Lemma X27_deleteRole_witness :
  unique_role_ids (db states_world) /\
  user (with_user (User_populate states_db user_root) (with_params_id "b05" sample_req))
  = Some (User_populate states_db user_root) /\
  Role_lookup (db states_world)
    (params_id (with_user (User_populate states_db user_root)
                  (with_params_id "b05" sample_req)))
  = Some role_auditor /\
  Role.isSystemRole role_auditor = false /\
  filter (fun u => String.eqb (User.role_id u) (Role._id role_auditor))
         (users (db states_world)) = [] /\
  result (deleteRole (with_user (User_populate states_db user_root)
                        (with_params_id "b05" sample_req))) states_world
  = Return (send (APIResponse_deleted (Text "Role deleted successfully"))) /\
  Role_lookup
    (db (after (deleteRole (with_user (User_populate states_db user_root)
                              (with_params_id "b05" sample_req))) states_world)) "b05"
  = None.
Proof.
  assert (Hids : unique_role_ids (db states_world)).
  { unfold unique_role_ids. cbn. repeat constructor; cbn; intuition discriminate. }
  repeat (split; [assumption || reflexivity|]).
  destruct (X27_deleteRole_removes_unused_role
              (with_user (User_populate states_db user_root) (with_params_id "b05" sample_req))
              states_world (User_populate states_db user_root) role_auditor
              Hids eq_refl eq_refl eq_refl eq_refl)
    as (H1 & H2 & _).
  first [exact H2 | split; [exact H1|exact H2]].
Defined.
